(** * FedRep baseline: body/head model split and the client's model manager

    A shallow embedding of [baselines/fedrep/fedrep/models.py]: the class
    [ModelSplit] (a network cut into a shared body and a personal head) and the
    class [ModelManager] (two-phase local training, fine-tuning and
    evaluation, with the head persisted in a per-client state file).

    Python objects that the methods mutate (the model, the optimiser, the
    state file) are passed in and returned; a call that can raise returns a
    [Result] next to the state it leaves behind.

    PyTorch is an external library.  Its tensors, modules, [load_state_dict]
    and SGD optimiser are modelled after their documented behaviour in
    torch 2.x:
    - a module is the ordered list of its named parameters, and its
      [state_dict()] lists their values in that order (buffers are not
      modelled);
    - [load_state_dict] copies the tensors it finds, reports missing and
      unexpected keys when [strict], and always rejects a tensor whose shape
      differs from the parameter's (the legacy acceptance of a one-element
      vector for a 0-dimensional parameter is left out);
    - [optimizer.zero_grad()] resets gradients to [None], [backward] gives a
      gradient to the parameters that require one, and [step] skips the
      parameters whose gradient is [None];
    - the elements of a tensor, the forward pass, the loss and the gradients
      are kept abstract (classes [TensorData], [PyFloatOps], [Network]) and
      are total functions, so every theorem holds for any arithmetic and
      any network; the errors torch raises on its own account are not
      modelled (a negative learning rate refused by the optimiser, a
      backward pass when no parameter requires a gradient), and a copy keeps
      the supplied elements as they are, without a cast between dtypes;
    - a data loader yields the same list of minibatches at every pass. *)

From Stdlib Require Import ZArith QArith Lia.
From stdpp Require Import base option list strings gmap.

Set Default Proof Using "Type".
Local Open Scope Z_scope.
Local Open Scope string_scope.
Local Open Scope list_scope.

(** ** Python results: a call returns a value or raises *)

Inductive PyError : Type :=
| ZeroDivisionError
| AttributeError
| RuntimeError.

Inductive Result (A : Type) : Type :=
| Ok (a : A)
| Raise (e : PyError).
Arguments Ok {A} a.
Arguments Raise {A} e.

Definition is_ok {A} (r : Result A) : bool :=
  match r with Ok _ => true | Raise _ => false end.

(** ** Python dictionaries

    [OrderedDict] and [dict] keep insertion order, and [state_dict] is
    consumed positionally by [get_parameters]: an association list in
    insertion order, whose keys are pairwise distinct. *)

Section Dict.
Context {V : Type}.

Fixpoint dict_get (d : list (string * V)) (k : string) : option V :=
  match d with
  | [] => None
  | (k', v) :: d' => if decide (k = k') then Some v else dict_get d' k
  end.

(** [d[k] = v]: an existing key keeps its position, a new key goes last. *)
Fixpoint dict_set (d : list (string * V)) (k : string) (v : V) : list (string * V) :=
  match d with
  | [] => [(k, v)]
  | (k', v') :: d' =>
      if decide (k = k') then (k', v) :: d' else (k', v') :: dict_set d' k v
  end.

(** [d.update(items)] *)
Definition dict_update (d items : list (string * V)) : list (string * V) :=
  fold_left (fun acc kv => dict_set acc kv.1 kv.2) items d.

(** [dict(items)] *)
Definition py_dict (items : list (string * V)) : list (string * V) :=
  dict_update [] items.

Definition dict_keys (d : list (string * V)) : list string := d.*1.
Definition dict_values (d : list (string * V)) : list V := d.*2.
End Dict.

(** ** Tensors *)

(** The elements of a tensor and the two in-place operations SGD uses. *)
Class TensorData : Type := {
  Data : Type;
  d_add : Data -> Data -> Data;       (* elementwise sum *)
  d_scale : Q -> Data -> Data;        (* multiplication by a Python float *)
}.

(** Python floats: loss values and metrics. *)
Class PyFloatOps : Type := {
  PyFloat : Type;
  float_lit : Q -> PyFloat;           (* a float literal *)
  float_of_int : Z -> PyFloat;
  float_add : PyFloat -> PyFloat -> PyFloat;
  float_div : PyFloat -> PyFloat -> PyFloat;   (* for a non-zero divisor *)
  int_truediv : Z -> Z -> PyFloat;             (* a / b for two ints, b non-zero *)
}.

Section Tensors.
Context `{TD : TensorData}.

Record Tensor : Type := { t_shape : list nat; t_data : Data }.

(** A numpy array in host memory. *)
Record ndarray : Type := { nd_shape : list nat; nd_data : Data }.

(** [t.cpu().numpy()] *)
Definition numpy (t : Tensor) : ndarray :=
  {| nd_shape := t_shape t; nd_data := t_data t |}.

(** [torch.from_numpy(a)] *)
Definition from_numpy (a : ndarray) : Tensor :=
  {| t_shape := nd_shape a; t_data := nd_data a |}.

(** In-place arithmetic keeps the shape of the tensor it updates. *)
Definition add_ (t : Tensor) (alpha : Q) (other : Tensor) : Tensor :=
  {| t_shape := t_shape t;
     t_data := d_add (t_data t) (d_scale alpha (t_data other)) |}.

Definition mul_ (t : Tensor) (c : Q) : Tensor :=
  {| t_shape := t_shape t; t_data := d_scale c (t_data t) |}.

Definition StateDict : Type := list (string * Tensor).

(** ** Modules: named parameters *)

Record Param : Type := {
  data : Tensor;
  requires_grad : bool;
  grad : option Tensor;
}.

(** A module is the ordered collection of its named parameters; its
    [state_dict()] lists them in that order. *)
Definition Module : Type := list (string * Param).

Definition state_dict_of (prefix : string) (m : Module) : StateDict :=
  map (fun kp => (prefix +:+ kp.1, data kp.2)) m.

(** [param.copy_(input_param)], under [torch.no_grad()] *)
Definition copy_ (p : Param) (t : Tensor) : Param :=
  {| data := {| t_shape := t_shape (data p); t_data := t_data t |};
     requires_grad := requires_grad p;
     grad := grad p |}.

(** What loading one parameter reports. *)
Inductive LoadIssue : Type :=
| Loaded
| MissingKey (key : string)
| SizeMismatch (key : string).

(** [Module._load_from_state_dict] for one parameter: a key that is
    present with the right shape is copied, a wrong shape is recorded and
    skipped, an absent key is recorded as missing. *)
Definition load_param (prefix : string) (sd : StateDict)
    (kp : string * Param) : (string * Param) * LoadIssue :=
  let key := prefix +:+ kp.1 in
  match dict_get sd key with
  | Some t =>
      if decide (t_shape t = t_shape (data kp.2))
      then ((kp.1, copy_ kp.2 t), Loaded)
      else (kp, SizeMismatch key)
  | None => (kp, MissingKey key)
  end.

Definition load_params (prefix : string) (sd : StateDict) (m : Module)
    : Module * list LoadIssue :=
  let r := map (load_param prefix sd) m in (r.*1, r.*2).

Definition missing_keys (issues : list LoadIssue) : list string :=
  omap (fun i => match i with MissingKey k => Some k | _ => None end) issues.

Definition size_mismatches (issues : list LoadIssue) : list string :=
  omap (fun i => match i with SizeMismatch k => Some k | _ => None end) issues.

Definition unexpected_keys (expected : list string) (sd : StateDict) : list string :=
  filter (fun k => k ∉ expected) (dict_keys sd).

(** The end of [load_state_dict]: with [strict], missing and unexpected
    keys are errors; a size mismatch always is.  It returns the pair of
    missing and unexpected keys. *)
Definition load_outcome (strict : bool) (missing unexpected mismatched : list string)
    : Result (list string * list string) :=
  let error_msgs :=
    (if strict then unexpected ++ missing else []) ++ mismatched in
  match error_msgs with
  | [] => Ok (missing, unexpected)
  | _ :: _ => Raise RuntimeError
  end.

(** [module.load_state_dict(sd, strict)] on a module without children.
    Parameters are copied before the errors are raised. *)
Definition load_state_dict (m : Module) (sd : StateDict) (strict : bool)
    : Module * Result (list string * list string) :=
  let '(m', issues) := load_params "" sd m in
  (m', load_outcome strict (missing_keys issues)
         (unexpected_keys (dict_keys (state_dict_of "" m)) sd)
         (size_mismatches issues)).

(** ** class ModelSplit *)

(** [self._body] and [self._head] are registered in this order, so the
    model's own [state_dict()] lists the body under the prefix [_body.]
    and then the head under [_head.]. *)
Record ModelSplit : Type := {
  _body : Module;
  _head : Module;
  training : bool;
}.

Definition body (ms : ModelSplit) : Module := _body ms.
Definition head (ms : ModelSplit) : Module := _head ms.

Definition body_prefix : string := "_body.".
Definition head_prefix : string := "_head.".

Definition state_dict (ms : ModelSplit) : StateDict :=
  state_dict_of body_prefix (body ms) ++ state_dict_of head_prefix (head ms).

(** [self.load_state_dict(sd, strict)] on the split model. *)
Definition split_load_state_dict (ms : ModelSplit) (sd : StateDict) (strict : bool)
    : ModelSplit * Result (list string * list string) :=
  let '(b, ib) := load_params body_prefix sd (body ms) in
  let '(h, ih) := load_params head_prefix sd (head ms) in
  ({| _body := b; _head := h; training := training ms |},
   load_outcome strict (missing_keys (ib ++ ih))
     (unexpected_keys (dict_keys (state_dict ms)) sd)
     (size_mismatches (ib ++ ih))).

(** The [body] setter: [self.body.load_state_dict(state_dict, strict=True)] *)
Definition set_body (ms : ModelSplit) (sd : StateDict)
    : ModelSplit * Result (list string * list string) :=
  let '(b, r) := load_state_dict (body ms) sd true in
  ({| _body := b; _head := _head ms; training := training ms |}, r).

(** The [head] setter: [self.head.load_state_dict(state_dict, strict=True)] *)
Definition set_head (ms : ModelSplit) (sd : StateDict)
    : ModelSplit * Result (list string * list string) :=
  let '(h, r) := load_state_dict (head ms) sd true in
  ({| _body := _body ms; _head := h; training := training ms |}, r).

Definition get_parameters (ms : ModelSplit) : list ndarray :=
  map numpy (dict_values (state_dict_of "" (body ms))
             ++ dict_values (state_dict_of "" (head ms))).

Definition set_parameters (ms : ModelSplit) (sd : StateDict)
    : ModelSplit * Result (list string * list string) :=
  let ordered_state_dict := state_dict ms in
  let ordered_state_dict := dict_update ordered_state_dict (py_dict sd) in
  split_load_state_dict ms ordered_state_dict false.

Definition set_requires_grad (b : bool) (m : Module) : Module :=
  map (fun kp => (kp.1, {| data := data kp.2; requires_grad := b; grad := grad kp.2 |})) m.

Definition enable_head (ms : ModelSplit) : ModelSplit :=
  {| _body := _body ms; _head := set_requires_grad true (head ms); training := training ms |}.

Definition enable_body (ms : ModelSplit) : ModelSplit :=
  {| _body := set_requires_grad true (body ms); _head := _head ms; training := training ms |}.

Definition disable_head (ms : ModelSplit) : ModelSplit :=
  {| _body := _body ms; _head := set_requires_grad false (head ms); training := training ms |}.

Definition disable_body (ms : ModelSplit) : ModelSplit :=
  {| _body := set_requires_grad false (body ms); _head := _head ms; training := training ms |}.

(** ** Predicates on state dictionaries *)

(** The mapping has exactly the keys of the module. *)
Definition same_keys (sd : StateDict) (m : Module) : Prop :=
  forall k, k ∈ dict_keys sd <-> k ∈ dict_keys (state_dict_of "" m).

(** Under [prefix], every tensor the mapping gives for a parameter of the
    module has the shape of that parameter. *)
Definition shapes_agree (prefix : string) (sd : StateDict) (m : Module) : Prop :=
  forall kp t, kp ∈ m -> dict_get sd (prefix +:+ kp.1) = Some t ->
               t_shape t = t_shape (data kp.2).

(** The names and shapes of a module, in order. *)
Definition signature (m : Module) : list (string * list nat) :=
  map (fun kp => (kp.1, t_shape (data kp.2))) m.

(** What training never changes in a module: the names, the shapes and
    which parameters require a gradient. *)
Definition frame (m : Module) : list (string * list nat * bool) :=
  map (fun kp => (kp.1, t_shape (data kp.2), requires_grad kp.2)) m.

(** What loading never changes in a module: the names, which parameters
    require a gradient, and the gradients stored so far. *)
Definition grad_state (m : Module) : list (string * bool * option Tensor) :=
  map (fun kp => (kp.1, requires_grad kp.2, grad kp.2)) m.

(** The keys and shapes of a state dictionary, in order. *)
Definition shapes_of (d : StateDict) : list (string * list nat) :=
  map (fun kv => (kv.1, t_shape kv.2)) d.

(** [self.model.train()] and [self.model.eval()] *)
Definition set_mode (mode : bool) (ms : ModelSplit) : ModelSplit :=
  {| _body := _body ms; _head := _head ms; training := mode |}.
End Tensors.

(** ** The network and its data, as the manager sees them *)

(** What the forward and backward passes compute is left open: they are
    functions of the mode flag, of the model's state at the forward pass and
    of the minibatch. *)
Class Network `{TD : TensorData} `{FO : PyFloatOps} : Type := {
  Batch : Type;
  (* labels.size(0) *)
  batch_size : Batch -> Z;
  (* criterion(model(images), labels), cross entropy *)
  loss_value : bool -> StateDict -> Batch -> PyFloat;
  (* (torch.max(outputs.data, 1)[1] == labels).sum().item() *)
  num_correct : bool -> StateDict -> Batch -> Z;
  (* the derivative of that loss in the parameter of the given name *)
  gradient : bool -> StateDict -> Batch -> string -> Data;
}.

(** The constants [models.py] imports from [fedrep.constants].  Their values
    are not part of [models.py] and are left open. *)
Class Constants : Type := {
  DEFAULT_FINETUNE_EPOCHS : Z;
  DEFAULT_LOCAL_TRAIN_EPOCHS : Z;
  DEFAULT_REPRESENTATION_EPOCHS : Z;
}.

Section Manager.
Context `{NW : Network} `{CS : Constants}.

(** ** torch.optim.SGD (dampening 0, weight decay 0, no Nesterov) *)

(** The optimiser refers to the parameters of the model it was built on;
    its own state is one momentum buffer per parameter, created at the
    first step that sees a gradient for it. *)
Record SGD : Type := {
  lr : Q;
  momentum : Q;
  momentum_buffer : list (string * Tensor);
}.

(** [torch.optim.SGD(params, lr=lr, momentum=momentum)] *)
Definition SGD_new (lr momentum : Q) : SGD :=
  {| lr := lr; momentum := momentum; momentum_buffer := [] |}.

Definition clear_grad (m : Module) : Module :=
  map (fun kp => (kp.1, {| data := data kp.2;
                           requires_grad := requires_grad kp.2;
                           grad := None |})) m.

(** [optimizer.zero_grad()]: since torch 2.0 the default [set_to_none=True]
    resets the gradient of every parameter of the optimiser to [None]. *)
Definition zero_grad (ms : ModelSplit) : ModelSplit :=
  {| _body := clear_grad (body ms);
     _head := clear_grad (head ms);
     training := training ms |}.

(** Autograd adds the derivative to the gradient of a parameter that
    requires one and leaves the other parameters alone. *)
Definition accumulate_grad (p : Param) (g : Data) : Param :=
  if requires_grad p then
    {| data := data p;
       requires_grad := requires_grad p;
       grad := Some match grad p with
                    | None => {| t_shape := t_shape (data p); t_data := g |}
                    | Some old => {| t_shape := t_shape old;
                                     t_data := d_add (t_data old) g |}
                    end |}
  else p.

Definition backward_module (prefix : string) (mode : bool) (st : StateDict)
    (b : Batch) (m : Module) : Module :=
  map (fun kp => (kp.1, accumulate_grad kp.2 (gradient mode st b (prefix +:+ kp.1)))) m.

(** [loss.backward()] for the loss of minibatch [b] *)
Definition backward (ms : ModelSplit) (b : Batch) : ModelSplit :=
  let st := state_dict ms in
  {| _body := backward_module body_prefix (training ms) st b (body ms);
     _head := backward_module head_prefix (training ms) st b (head ms);
     training := training ms |}.

Definition with_data (p : Param) (t : Tensor) : Param :=
  {| data := t; requires_grad := requires_grad p; grad := grad p |}.

(** One parameter of [optimizer.step()]: a parameter whose gradient is
    [None] is skipped. *)
Definition sgd_param (opt : SGD) (key : string) (p : Param)
    (bufs : list (string * Tensor)) : Param * list (string * Tensor) :=
  match grad p with
  | None => (p, bufs)
  | Some g =>
      if Qeq_bool (momentum opt) 0 then
        (with_data p (add_ (data p) (- lr opt) g), bufs)
      else
        let buf := match dict_get bufs key with
                   | None => g
                   | Some b => add_ (mul_ b (momentum opt)) 1 g
                   end in
        (with_data p (add_ (data p) (- lr opt) buf), dict_set bufs key buf)
  end.

Fixpoint sgd_module (opt : SGD) (prefix : string) (m : Module)
    (bufs : list (string * Tensor)) : Module * list (string * Tensor) :=
  match m with
  | [] => ([], bufs)
  | kp :: m' =>
      let '(p', bufs1) := sgd_param opt (prefix +:+ kp.1) kp.2 bufs in
      let '(m'', bufs2) := sgd_module opt prefix m' bufs1 in
      ((kp.1, p') :: m'', bufs2)
  end.

(** [optimizer.step()], over [self.model.parameters()]: body, then head *)
Definition step (opt : SGD) (ms : ModelSplit) : ModelSplit * SGD :=
  let '(b, bufs1) := sgd_module opt body_prefix (body ms) (momentum_buffer opt) in
  let '(h, bufs2) := sgd_module opt head_prefix (head ms) bufs1 in
  ({| _body := b; _head := h; training := training ms |},
   {| lr := lr opt; momentum := momentum opt; momentum_buffer := bufs2 |}).




(** ** class ModelManager *)

(** The optional fields of the configuration that the manager reads. *)
Record DictConfig : Type := {
  num_local_epochs : option Z;
  num_rep_epochs : option Z;
  num_finetune_epochs : option Z;
}.

(** A data loader: the minibatches one pass yields and [len(loader.dataset)]. *)
Record DataLoader : Type := {
  dataset_len : Z;
  batches : list Batch;
}.

Record ModelManager : Type := {
  config : DictConfig;
  client_id : Z;
  trainloader : DataLoader;
  testloader : DataLoader;
  client_save_path : option string;
  learning_rate : Q;
  _model : ModelSplit;
}.

Definition model (mm : ModelManager) : ModelSplit := _model mm.

Definition with_model (mm : ModelManager) (ms : ModelSplit) : ModelManager :=
  {| config := config mm; client_id := client_id mm;
     trainloader := trainloader mm; testloader := testloader mm;
     client_save_path := client_save_path mm;
     learning_rate := learning_rate mm; _model := ms |}.

(** [if self.client_save_path is not None and os.path.isfile(...)]:
    [self.model.head.load_state_dict(torch.load(self.client_save_path))].
    The file system maps the path of a state file to the dictionary
    [torch.save] wrote there. *)
Definition load_client_state (mm : ModelManager) (fs : gmap string StateDict)
    : ModelManager * Result unit :=
  match client_save_path mm with
  | Some path =>
      match fs !! path with
      | Some saved =>
          let '(h, r) := load_state_dict (head (model mm)) saved true in
          (with_model mm {| _body := _body (model mm); _head := h;
                            training := training (model mm) |},
           match r with Ok _ => Ok tt | Raise e => Raise e end)
      | None => (mm, Ok tt)
      end
  | None => (mm, Ok tt)
  end.

(** [if self.client_save_path is not None:]
    [torch.save(self.model.head.state_dict(), self.client_save_path)] *)
Definition save_client_state (mm : ModelManager) (fs : gmap string StateDict)
    : gmap string StateDict :=
  match client_save_path mm with
  | Some path => <[path := state_dict_of "" (head (model mm))]> fs
  | None => fs
  end.

(** [range(n)] *)
Definition range (n : Z) : list Z := map Z.of_nat (seq 0 (Z.to_nat n)).

(** The variable [loss] of [train]: the float it is initialised with, or
    the loss tensor of the last minibatch. *)
Inductive LossVar : Type :=
| FloatObj (x : Q)
| LossTensor (x : PyFloat).

(** [loss.item()]: a Python float has no such method. *)
Definition item (l : LossVar) : Result PyFloat :=
  match l with
  | FloatObj _ => Raise AttributeError
  | LossTensor x => Ok x
  end.

(** [correct / total] *)
Definition py_int_truediv (a b : Z) : Result PyFloat :=
  if decide (b = 0) then Raise ZeroDivisionError else Ok (int_truediv a b).

(** [loss / n] for a float and an int *)
Definition py_float_truediv (x : PyFloat) (n : Z) : Result PyFloat :=
  if decide (n = 0) then Raise ZeroDivisionError
  else Ok (float_div x (float_of_int n)).

(** The returned dictionary. *)
Record Metrics : Type := { m_loss : PyFloat; m_accuracy : PyFloat }.

(** The local variables of [train] that its loop updates. *)
Record TrainState : Type := {
  ts_model : ModelSplit;
  ts_optimizer : SGD;
  ts_loss : LossVar;
  ts_correct : Z;
  ts_total : Z;
}.

(** The body of [for images, labels in self.trainloader] in [train]. *)
Definition train_batch (st : TrainState) (b : Batch) : TrainState :=
  let ms := ts_model st in
  let loss := loss_value (training ms) (state_dict ms) b in
  let hits := num_correct (training ms) (state_dict ms) b in
  let ms := zero_grad ms in
  let ms := backward ms b in
  let '(ms, opt) := step (ts_optimizer st) ms in
  {| ts_model := ms; ts_optimizer := opt; ts_loss := LossTensor loss;
     ts_total := ts_total st + batch_size b;
     ts_correct := ts_correct st + hits |}.

Definition with_ts_model (st : TrainState) (ms : ModelSplit) : TrainState :=
  {| ts_model := ms; ts_optimizer := ts_optimizer st; ts_loss := ts_loss st;
     ts_correct := ts_correct st; ts_total := ts_total st |}.

(** The body of [for i in range(num_local_epochs + num_rep_epochs)]. *)
Definition train_epoch (loader : DataLoader) (num_local_epochs : Z)
    (st : TrainState) (i : Z) : TrainState :=
  let ms := ts_model st in
  let ms := if decide (i < num_local_epochs)
            then enable_head (disable_body ms)
            else disable_head (enable_body ms) in
  fold_left train_batch (batches loader) (with_ts_model st ms).

Definition resolve (default : Z) (field : option Z) : Z :=
  match field with Some v => v | None => default end.

(** [train], from the creation of the criterion and the optimiser to the
    end of the loop. *)
Definition train_init (mm : ModelManager) : TrainState :=
  let optimizer := SGD_new (learning_rate mm) (1 # 2) in
  {| ts_model := set_mode true (model mm); ts_optimizer := optimizer;
     ts_loss := FloatObj 0; ts_correct := 0; ts_total := 0 |}.

Definition train_loop (mm : ModelManager) (num_local_epochs num_rep_epochs : Z)
    : TrainState :=
  fold_left (train_epoch (trainloader mm) num_local_epochs)
    (range (num_local_epochs + num_rep_epochs)) (train_init mm).

(** [{"loss": loss.item(), "accuracy": correct / total}], left to right *)
Definition train_metrics (st : TrainState) : Result Metrics :=
  match item (ts_loss st) with
  | Raise e => Raise e
  | Ok l =>
      match py_int_truediv (ts_correct st) (ts_total st) with
      | Raise e => Raise e
      | Ok a => Ok {| m_loss := l; m_accuracy := a |}
      end
  end.

(** [train] after the client state is loaded. *)
Definition train_loaded (mm : ModelManager) (fs : gmap string StateDict)
    : (ModelManager * gmap string StateDict) * Result Metrics :=
  let num_local_epochs :=
    resolve DEFAULT_LOCAL_TRAIN_EPOCHS (num_local_epochs (config mm)) in
  let num_rep_epochs :=
    resolve DEFAULT_REPRESENTATION_EPOCHS (num_rep_epochs (config mm)) in
  let st := train_loop mm num_local_epochs num_rep_epochs in
  let mm := with_model mm (ts_model st) in
  ((mm, save_client_state mm fs), train_metrics st).

(** [ModelManager.train]: the manager and the file system after the call,
    and what the call returns or raises. *)
Definition train (mm : ModelManager) (fs : gmap string StateDict)
    : (ModelManager * gmap string StateDict) * Result Metrics :=
  match load_client_state mm fs with
  | (mm, Raise e) => ((mm, fs), Raise e)
  | (mm, Ok _) => train_loaded mm fs
  end.

(** The body of [for images, labels in self.trainloader] in the
    fine-tuning loop of [test]. *)
Definition finetune_batch (st : ModelSplit * SGD) (b : Batch) : ModelSplit * SGD :=
  let ms := zero_grad st.1 in
  let ms := backward ms b in
  step st.2 ms.

(** [if num_finetune_epochs > 0: ...] *)
Definition finetune (mm : ModelManager) (num_finetune_epochs : Z) : ModelSplit :=
  if decide (0 < num_finetune_epochs) then
    let optimizer := SGD_new (learning_rate mm) 0 in
    let ms := set_mode true (model mm) in
    (fold_left (fun st (_ : Z) => fold_left finetune_batch (batches (trainloader mm)) st)
       (range num_finetune_epochs) (ms, optimizer)).1
  else model mm.

(** The local variables of the evaluation loop of [test]. *)
Record EvalState : Type := {
  es_loss : PyFloat;
  es_correct : Z;
  es_total : Z;
}.

(** The body of [for images, labels in self.testloader], under
    [torch.no_grad()]. *)
Definition eval_batch (ms : ModelSplit) (st : EvalState) (b : Batch) : EvalState :=
  {| es_loss := float_add (es_loss st) (loss_value (training ms) (state_dict ms) b);
     es_total := es_total st + batch_size b;
     es_correct := es_correct st + num_correct (training ms) (state_dict ms) b |}.

Definition eval_loop (ms : ModelSplit) (loader : DataLoader) : EvalState :=
  fold_left (eval_batch ms) (batches loader)
    {| es_loss := float_lit 0; es_correct := 0; es_total := 0 |}.

(** [{"loss": loss / len(self.testloader.dataset), "accuracy": correct / total}],
    left to right *)
Definition test_metrics (loader : DataLoader) (st : EvalState) : Result Metrics :=
  match py_float_truediv (es_loss st) (dataset_len loader) with
  | Raise e => Raise e
  | Ok l =>
      match py_int_truediv (es_correct st) (es_total st) with
      | Raise e => Raise e
      | Ok a => Ok {| m_loss := l; m_accuracy := a |}
      end
  end.

(** [test] after the client state is loaded. *)
Definition test_loaded (mm : ModelManager) (fs : gmap string StateDict)
    : (ModelManager * gmap string StateDict) * Result Metrics :=
  let num_finetune_epochs :=
    resolve DEFAULT_FINETUNE_EPOCHS (num_finetune_epochs (config mm)) in
  let ms := finetune mm num_finetune_epochs in
  let ms := set_mode false ms in
  let st := eval_loop ms (testloader mm) in
  ((with_model mm ms, fs), test_metrics (testloader mm) st).

(** The counts of the evaluation loop when [test] reaches its [return]. *)
Definition test_eval_state (mm : ModelManager) : EvalState :=
  eval_loop
    (set_mode false
       (finetune mm (resolve DEFAULT_FINETUNE_EPOCHS (num_finetune_epochs (config mm)))))
    (testloader mm).

(** [ModelManager.test] *)
Definition test (mm : ModelManager) (fs : gmap string StateDict)
    : (ModelManager * gmap string StateDict) * Result Metrics :=
  match load_client_state mm fs with
  | (mm, Raise e) => ((mm, fs), Raise e)
  | (mm, Ok _) => test_loaded mm fs
  end.

(** ** The two phases, as the design describes them

    One epoch of the head phase and one of the representation phase; the
    theorems below compare the loop of [train] with running the first
    [num_local_epochs] times and then the second [num_rep_epochs] times. *)

Definition head_epoch (loader : DataLoader) (st : TrainState) : TrainState :=
  fold_left train_batch (batches loader)
    (with_ts_model st (enable_head (disable_body (ts_model st)))).

Definition rep_epoch (loader : DataLoader) (st : TrainState) : TrainState :=
  fold_left train_batch (batches loader)
    (with_ts_model st (disable_head (enable_body (ts_model st)))).

Definition phase_A (mm : ModelManager) (num_local_epochs : Z) : TrainState :=
  Nat.iter (Z.to_nat num_local_epochs) (head_epoch (trainloader mm)) (train_init mm).


(** Every parameter of the module has this [requires_grad]. *)
Definition grads_set (b : bool) (m : Module) : Prop :=
  Forall (fun kp => requires_grad kp.2 = b) m.

(** The state a minibatch of an epoch starts from: the state the loop is in,
    with the switches of epoch [i] set. *)
Definition epoch_start (num_local_epochs : Z) (st : TrainState) (i : Z) : TrainState :=
  with_ts_model st
    (if decide (i < num_local_epochs)
     then enable_head (disable_body (ts_model st))
     else disable_head (enable_body (ts_model st))).


(** The state of [train] after the first [k] epochs of its loop. *)
Definition train_loop_upto (mm : ModelManager) (num_local_epochs num_rep_epochs : Z)
    (k : nat) : TrainState :=
  fold_left (train_epoch (trainloader mm) num_local_epochs)
    (take k (range (num_local_epochs + num_rep_epochs))) (train_init mm).


Definition rep_phase_flags (ms : ModelSplit) : Prop :=
  grads_set true (body ms) /\ grads_set false (head ms).

(** What a minibatch step keeps. *)
Definition batch_keeps (st st' : TrainState) : Prop :=
  frame (body (ts_model st')) = frame (body (ts_model st)) /\
  frame (head (ts_model st')) = frame (head (ts_model st)) /\
  lr (ts_optimizer st') = lr (ts_optimizer st) /\
  momentum (ts_optimizer st') = momentum (ts_optimizer st) /\
  dict_keys (momentum_buffer (ts_optimizer st))
    ⊆ dict_keys (momentum_buffer (ts_optimizer st')).

(** What an epoch keeps: names and shapes, and the optimiser. *)
Definition epoch_keeps (st st' : TrainState) : Prop :=
  signature (body (ts_model st')) = signature (body (ts_model st)) /\
  signature (head (ts_model st')) = signature (head (ts_model st)) /\
  lr (ts_optimizer st') = lr (ts_optimizer st) /\
  momentum (ts_optimizer st') = momentum (ts_optimizer st) /\
  dict_keys (momentum_buffer (ts_optimizer st))
    ⊆ dict_keys (momentum_buffer (ts_optimizer st')).

(** A state file exists for the manager. *)
Definition has_state_file (mm : ModelManager) (fs : gmap string StateDict) : Prop :=
  exists path, client_save_path mm = Some path /\ is_Some (fs !! path).

Definition train_dataset_size (mm : ModelManager) : Z := dataset_len (trainloader mm).
Definition test_dataset_size (mm : ModelManager) : Z := dataset_len (testloader mm).
Definition total_dataset_size (mm : ModelManager) : Z :=
  dataset_len (trainloader mm) + dataset_len (testloader mm).
End Manager.

(** ** A small concrete network

    Tensors whose elements are summed up in one integer, a "network" whose
    loss is the sum of its parameters times the input, and some default
    epoch counts.
    It is used to run the definitions on concrete inputs. *)
Module Toy.
#[export] Instance toy_data : TensorData :=
  {| Data := Z;
     d_add := Z.add;
     d_scale := fun c x => (Qnum c * x) / Z.pos (Qden c) |}.

#[export] Instance toy_float : PyFloatOps :=
  {| PyFloat := Q;
     float_lit := fun q => q;
     float_of_int := inject_Z;
     float_add := Qplus;
     float_div := Qdiv;
     int_truediv := fun a b => Qdiv (inject_Z a) (inject_Z b) |}.

Definition total_of (st : StateDict) : Z :=
  fold_right (fun kv acc => t_data kv.2 + acc) 0 st.

#[export] Instance toy_net : Network :=
  {| Batch := Z * Z;
     batch_size := fun b => b.2;
     loss_value := fun _ st b => inject_Z (total_of st * b.1);
     num_correct := fun _ _ b => b.2;
     gradient := fun _ _ b _ => 4 * b.1 |}.

#[export] Instance toy_constants : Constants :=
  {| DEFAULT_FINETUNE_EPOCHS := 5;
     DEFAULT_LOCAL_TRAIN_EPOCHS := 10;
     DEFAULT_REPRESENTATION_EPOCHS := 1 |}.

Definition weight (x : Z) : Tensor := {| t_shape := [2%nat; 4%nat]; t_data := x |}.
Definition bias (x : Z) : Tensor := {| t_shape := [2%nat]; t_data := x |}.
Definition long_bias (x : Z) : Tensor := {| t_shape := [3%nat]; t_data := x |}.
Definition param (t : Tensor) : Param :=
  {| data := t; requires_grad := true; grad := None |}.

(** A body with one weight and a head with a weight and a bias. *)
Definition net : ModelSplit :=
  {| _body := [("fc1.weight", param (weight 10))];
     _head := [("fc2.weight", param (weight 20)); ("fc2.bias", param (bias 30))];
     training := true |}.

Definition loader (bs : list (Z * Z)) : DataLoader :=
  {| dataset_len := fold_right (fun b acc => b.2 + acc) 0 bs; batches := bs |}.

Definition cfg (a b c : option Z) : DictConfig :=
  {| num_local_epochs := a; num_rep_epochs := b; num_finetune_epochs := c |}.

Definition manager (c : DictConfig) (tr te : list (Z * Z)) (path : option string)
    : ModelManager :=
  {| config := c; client_id := 0; trainloader := loader tr; testloader := loader te;
     client_save_path := path; learning_rate := 1 # 4; _model := net |}.

(** A client with one head epoch, one representation epoch, no
    fine-tuning, two training minibatches and a state path. *)
Definition client : ModelManager :=
  manager (cfg (Some 1) (Some 1) (Some 0)) [(1, 2); (2, 2)] [(1, 3)] (Some "state.pth").


(** The same client with nothing to train on. *)
Definition client_without_batches : ModelManager :=
  manager (cfg (Some 1) (Some 1) (Some 0)) [] [(1, 3)] (Some "state.pth").

Definition no_files : gmap string StateDict := ∅.

(** A state file left by an earlier round. *)
Definition old_head : StateDict :=
  [("fc2.weight", weight 1); ("fc2.bias", bias 2)].

Definition one_file : gmap string StateDict := {[ "state.pth" := old_head ]}.

(** A network of the same names and shapes as [net], with other values
    and its head frozen. *)
Definition other_net : ModelSplit :=
  {| _body := [("fc1.weight", param (weight 1))];
     _head := [("fc2.weight", {| data := weight 2; requires_grad := false; grad := None |});
               ("fc2.bias", {| data := bias 3; requires_grad := false; grad := None |})];
     training := false |}.

(** A bias of the wrong shape for [net]. *)
Definition bad_bias : StateDict := [("_head.fc2.bias", long_bias 7)].

(** A new bias and a key [net] does not have. *)
Definition new_bias : StateDict :=
  [("_head.fc2.bias", bias 7); ("extra.weight", weight 1)].

(** The client with two fine-tuning epochs. *)
Definition tuning_client : ModelManager :=
  manager (cfg (Some 1) (Some 1) (Some 2)) [(1, 2); (2, 2)] [(1, 3)] (Some "state.pth").

(** A client whose model has a frozen head, with two fine-tuning epochs. *)
Definition frozen_head_client : ModelManager :=
  {| config := cfg None None (Some 2); client_id := 1;
     trainloader := loader [(1, 2); (2, 2)]; testloader := loader [(1, 3)];
     client_save_path := None; learning_rate := 1 # 4; _model := other_net |}.

(** A client whose configuration asks for a negative number of head epochs. *)
Definition negative_client : ModelManager :=
  manager (cfg (Some (-1)) (Some 3) (Some 0)) [(1, 2)] [(1, 3)] None.

(** A new body weight only, as a server sends it. *)
Definition body_only : StateDict := [("_body.fc1.weight", weight 4)].

(** A state file written for another architecture. *)
Definition foreign_file : gmap string StateDict :=
  {[ "state.pth" := [("classifier.weight", weight 1)] ]}.

(** A good bias, no weight, and a key the head does not have. *)
Definition partial_head : StateDict :=
  [("fc2.bias", bias 9); ("fc3.bias", bias 1)].
End Toy.

(** * Properties *)

(** ** Dictionaries *)

Section DictFacts.
Context {V : Type}.
Implicit Types (d items : list (string * V)) (k : string) (v : V).

Lemma dict_get_None d k : dict_get d k = None <-> k ∉ dict_keys d.
Proof.
  unfold dict_keys. induction d as [|[k' v'] d IH]; csimpl.
  - split; [intros _; apply not_elem_of_nil | done].
  - case_decide as Hk.
    + subst. split; [done | intros Hn; exfalso; apply Hn; left].
    + rewrite IH, not_elem_of_cons. tauto.
Qed.

Lemma dict_get_Some_key d k v : dict_get d k = Some v -> k ∈ dict_keys d.
Proof.
  intros Hget. destruct (decide (k ∈ dict_keys d)) as [|Hn]; [done|].
  apply dict_get_None in Hn. congruence.
Qed.

Lemma dict_get_is_Some d k : k ∈ dict_keys d -> is_Some (dict_get d k).
Proof.
  intros Hin. destruct (dict_get d k) eqn:E; [eauto|].
  apply dict_get_None in E. done.
Qed.

Lemma dict_get_set d k v k' :
  dict_get (dict_set d k v) k' = if decide (k' = k) then Some v else dict_get d k'.
Proof.
  induction d as [|[k0 v0] d IH]; csimpl.
  - by repeat case_decide.
  - destruct (decide (k = k0)) as [->|Hne]; csimpl.
    + by repeat case_decide.
    + rewrite IH. repeat case_decide; congruence.
Qed.

Lemma dict_keys_set d k v :
  dict_keys (dict_set d k v) =
    if decide (k ∈ dict_keys d) then dict_keys d else dict_keys d ++ [k].
Proof.
  unfold dict_keys. induction d as [|[k0 v0] d IH]; csimpl.
  - destruct (decide (k ∈ [])) as [H|H]; [inversion H | done].
  - destruct (decide (k = k0)) as [->|Hne]; csimpl.
    + rewrite decide_True by left. done.
    + rewrite IH. destruct (decide (k ∈ d.*1)) as [Hin|Hin].
      * rewrite decide_True by (by right). done.
      * rewrite decide_False; [done|]. rewrite not_elem_of_cons. done.
Qed.

Lemma dict_keys_set_subseteq d k v : dict_keys d ⊆ dict_keys (dict_set d k v).
Proof.
  rewrite dict_keys_set. case_decide; [done|].
  intros x Hx. apply elem_of_app. by left.
Qed.

Lemma dict_set_NoDup d k v : NoDup (dict_keys d) -> NoDup (dict_keys (dict_set d k v)).
Proof.
  intros Hnd. rewrite dict_keys_set. case_decide as Hin; [done|].
  apply NoDup_app. split_and!; [done | | apply NoDup_singleton].
  intros x Hx Hx'. apply list_elem_of_singleton in Hx'. by subst.
Qed.

Lemma dict_update_NoDup d items :
  NoDup (dict_keys d) -> NoDup (dict_keys (dict_update d items)).
Proof.
  unfold dict_update. revert d.
  induction items as [|[k v] items IH]; intros d Hnd; simpl; [done|].
  apply IH. by apply dict_set_NoDup.
Qed.

Lemma py_dict_NoDup items : NoDup (dict_keys (py_dict items)).
Proof. apply dict_update_NoDup. apply NoDup_nil_2. Qed.

(** Updating with a proper dictionary: its value wins, otherwise the old
    value stays. *)
Lemma dict_get_update d items k :
  NoDup (dict_keys items) ->
  dict_get (dict_update d items) k =
    match dict_get items k with Some v => Some v | None => dict_get d k end.
Proof.
  unfold dict_update, dict_keys. revert d.
  induction items as [|[k0 v0] items IH]; intros d Hnd; simpl; [done|].
  apply NoDup_cons in Hnd as [Hk0 Hnd].
  rewrite IH by done. rewrite dict_get_set.
  destruct (decide (k = k0)) as [->|Hne]; [|done].
  assert (dict_get items k0 = None) as -> by (by apply dict_get_None).
  done.
Qed.

Lemma dict_keys_update d items :
  dict_keys d ⊆ dict_keys (dict_update d items).
Proof.
  unfold dict_update. revert d.
  induction items as [|[k v] items IH]; intros d; simpl; [done|].
  etrans; [apply (dict_keys_set_subseteq d k v) | apply IH].
Qed.

(** A dictionary without repeated keys is determined by its lookups and
    the order of its keys. *)
Lemma dict_ext d d' :
  dict_keys d = dict_keys d' -> NoDup (dict_keys d) ->
  (forall k, dict_get d k = dict_get d' k) -> d = d'.
Proof.
  unfold dict_keys. revert d'.
  induction d as [|[k v] d IH]; intros [|[k' v'] d'] Hkeys Hnd Hget;
    simpl in *; try done.
  injection Hkeys as -> Hkeys. apply NoDup_cons in Hnd as [Hk Hnd].
  pose proof (Hget k') as Hk'. rewrite !decide_True in Hk' by done.
  injection Hk' as ->. f_equal. apply IH; [done..|].
  intros k0. specialize (Hget k0).
  destruct (decide (k0 = k')) as [->|Hne]; [|done].
  pose proof Hk as Hk''. rewrite Hkeys in Hk''.
  apply dict_get_None in Hk, Hk''. congruence.
Qed.
End DictFacts.

(** ** Loading a state dictionary into a module *)

Section LoadFacts.
Context `{TD : TensorData}.
Implicit Types (m : Module) (sd : StateDict) (p : Param) (t : Tensor).

Lemma tensor_eta t : {| t_shape := t_shape t; t_data := t_data t |} = t.
Proof. by destruct t. Qed.

Lemma copy_same_shape p t :
  t_shape t = t_shape (data p) -> data (copy_ p t) = t.
Proof. intros Hsh. unfold copy_. cbn [data]. rewrite <- Hsh. apply tensor_eta. Qed.

Lemma copy_own_data p : copy_ p (data p) = p.
Proof. destruct p as [[sh dt] rg g]. reflexivity. Qed.

Lemma state_dict_of_keys prefix m :
  dict_keys (state_dict_of prefix m) = map (fun kp => prefix +:+ kp.1) m.
Proof. unfold dict_keys, state_dict_of. by rewrite <- list_fmap_compose. Qed.

Lemma state_dict_of_elem prefix m kp :
  kp ∈ m -> prefix +:+ kp.1 ∈ dict_keys (state_dict_of prefix m).
Proof.
  intros Hin. rewrite state_dict_of_keys.
  apply list_elem_of_fmap. by exists kp.
Qed.

Lemma state_dict_of_key_inv prefix m k :
  k ∈ dict_keys (state_dict_of prefix m) -> exists kp, kp ∈ m /\ k = prefix +:+ kp.1.
Proof.
  rewrite state_dict_of_keys. intros Hin.
  apply list_elem_of_fmap in Hin as (kp & -> & Hin). eauto.
Qed.

Lemma load_params_cons prefix sd kp m :
  load_params prefix sd (kp :: m) =
    ((load_param prefix sd kp).1 :: (load_params prefix sd m).1,
     (load_param prefix sd kp).2 :: (load_params prefix sd m).2).
Proof. reflexivity. Qed.

(** The three ways loading one parameter can go. *)
Lemma load_param_cases prefix sd kp :
  (exists t, dict_get sd (prefix +:+ kp.1) = Some t /\
             t_shape t = t_shape (data kp.2) /\
             load_param prefix sd kp = ((kp.1, copy_ kp.2 t), Loaded)) \/
  (exists t, dict_get sd (prefix +:+ kp.1) = Some t /\
             t_shape t <> t_shape (data kp.2) /\
             load_param prefix sd kp = (kp, SizeMismatch (prefix +:+ kp.1))) \/
  (dict_get sd (prefix +:+ kp.1) = None /\
   load_param prefix sd kp = (kp, MissingKey (prefix +:+ kp.1))).
Proof.
  unfold load_param. destruct (dict_get sd (prefix +:+ kp.1)) as [t|]; [|by auto].
  case_decide; [left | right; left]; exists t; auto.
Qed.

Lemma load_param_signature prefix sd kp :
  (load_param prefix sd kp).1.1 = kp.1 /\
  t_shape (data (load_param prefix sd kp).1.2) = t_shape (data kp.2) /\
  requires_grad (load_param prefix sd kp).1.2 = requires_grad kp.2 /\
  grad (load_param prefix sd kp).1.2 = grad kp.2.
Proof.
  destruct (load_param_cases prefix sd kp)
    as [(t & _ & _ & ->)|[(t & _ & _ & ->)|(_ & ->)]]; done.
Qed.

Lemma load_params_signature prefix sd m :
  signature (load_params prefix sd m).1 = signature m.
Proof.
  induction m as [|kp m IH]; [done|].
  rewrite load_params_cons. unfold signature in *. cbn [map fst].
  destruct (load_param_signature prefix sd kp) as (-> & -> & _). by rewrite IH.
Qed.

Lemma signature_keys prefix m m' :
  signature m = signature m' ->
  dict_keys (state_dict_of prefix m) = dict_keys (state_dict_of prefix m').
Proof.
  rewrite !state_dict_of_keys. unfold signature. revert m'.
  induction m as [|kp m IH]; intros [|kp' m'] Hsig; simplify_eq/=; [done|].
  f_equal; [congruence | by apply IH].
Qed.

Lemma load_params_requires_grad prefix sd m b :
  Forall (fun kp => requires_grad kp.2 = b) m ->
  Forall (fun kp => requires_grad kp.2 = b) (load_params prefix sd m).1.
Proof.
  induction 1 as [|kp m Hkp _ IH]; [by constructor|].
  rewrite load_params_cons. constructor; [|done].
  destruct (load_param_signature prefix sd kp) as (_ & _ & -> & _). done.
Qed.

(** A key that is absent from the dictionary is reported missing. *)
Lemma load_params_missing prefix sd m kp :
  kp ∈ m -> dict_get sd (prefix +:+ kp.1) = None ->
  missing_keys (load_params prefix sd m).2 <> [].
Proof.
  intros Hin Hget. induction m as [|kp' m IH]; [by apply elem_of_nil in Hin|].
  rewrite load_params_cons. unfold missing_keys in *. cbn [snd omap list_omap].
  apply elem_of_cons in Hin as [->|Hin].
  - destruct (load_param_cases prefix sd kp')
      as [(t & Ht & _)|[(t & Ht & _)|(_ & ->)]]; [congruence..|done].
  - destruct ((load_param prefix sd kp').2); try done; by apply IH.
Qed.

(** When every parameter finds a tensor of its shape, nothing is reported
    and every parameter holds the tensor found under its key. *)
Lemma load_params_ok prefix sd m :
  (forall kp, kp ∈ m -> is_Some (dict_get sd (prefix +:+ kp.1))) ->
  shapes_agree prefix sd m ->
  missing_keys (load_params prefix sd m).2 = [] /\
  size_mismatches (load_params prefix sd m).2 = [] /\
  Forall (fun kv => dict_get sd kv.1 = Some kv.2)
    (state_dict_of prefix (load_params prefix sd m).1).
Proof.
  intros Hall Hsh. induction m as [|kp m IH]; [by repeat split; constructor|].
  destruct IH as (IH1 & IH2 & IH3).
  { intros kp' Hin. apply Hall. by right. }
  { intros kp' t Hin. apply Hsh. by right. }
  rewrite load_params_cons. unfold missing_keys, size_mismatches in *.
  cbn [fst snd omap list_omap state_dict_of map].
  destruct (Hall kp) as [t Ht]; [by left|].
  assert (t_shape t = t_shape (data kp.2)) as Hshape by (apply Hsh; [by left|done]).
  destruct (load_param_cases prefix sd kp)
    as [(t' & Ht' & _ & ->)|[(t' & Ht' & Hne & _)|(Hnone & _)]];
    [|congruence..].
  assert (t' = t) as -> by congruence. cbn [fst snd].
  split_and!; [done..|]. constructor; [|done].
  cbn [fst snd]. by rewrite copy_same_shape.
Qed.

Lemma dict_get_state_dict_loaded prefix sd m k :
  Forall (fun kv => dict_get sd kv.1 = Some kv.2) (state_dict_of prefix m) ->
  k ∈ dict_keys (state_dict_of prefix m) ->
  dict_get (state_dict_of prefix m) k = dict_get sd k.
Proof.
  generalize (state_dict_of prefix m). intros d Hall Hin.
  induction Hall as [|[k' v'] d Hkv _ IH]; [by apply elem_of_nil in Hin|].
  cbn [dict_get]. cbn [fst snd] in Hkv.
  case_decide as Hk; [subst; by rewrite Hkv|].
  apply IH. unfold dict_keys in Hin. cbn in Hin.
  apply elem_of_cons in Hin as [?|?]; done.
Qed.

Lemma load_outcome_raise strict missing unexpected mismatched :
  (strict = true /\ (missing <> [] \/ unexpected <> [])) \/ mismatched <> [] ->
  load_outcome strict missing unexpected mismatched = Raise RuntimeError.
Proof.
  unfold load_outcome. intros [[-> [H|H]]|H].
  - destruct unexpected, missing; done.
  - destruct unexpected; done.
  - destruct (if strict then _ else _), mismatched; done.
Qed.

Lemma load_outcome_ok strict unexpected :
  (strict = true -> unexpected = []) ->
  load_outcome strict [] unexpected [] = Ok ([], unexpected).
Proof.
  unfold load_outcome. destruct strict; [|by rewrite app_nil_r].
  intros ->; done.
Qed.

Lemma unexpected_keys_nil expected sd :
  dict_keys sd ⊆ expected -> unexpected_keys expected sd = [].
Proof.
  unfold unexpected_keys. intros Hsub.
  induction (dict_keys sd) as [|k ks IH]; [done|].
  rewrite filter_cons, decide_False.
  - apply IH. intros x Hx. apply Hsub. by right.
  - intros Hn. apply Hn, Hsub. by left.
Qed.

Lemma unexpected_keys_elem expected sd k :
  k ∈ dict_keys sd -> k ∉ expected -> unexpected_keys expected sd <> [].
Proof.
  unfold unexpected_keys. intros Hin Hn Hnil.
  assert (k ∈ filter (fun k => k ∉ expected) (dict_keys sd)) as Hk
    by (by apply list_elem_of_filter).
  rewrite Hnil in Hk. by apply elem_of_nil in Hk.
Qed.
End LoadFacts.

Section ModuleLoad.
Context `{TD : TensorData}.
Implicit Types (m : Module) (sd : StateDict) (ms : ModelSplit).

Lemma load_state_dict_unfold m sd strict :
  load_state_dict m sd strict =
    ((load_params "" sd m).1,
     load_outcome strict (missing_keys (load_params "" sd m).2)
       (unexpected_keys (dict_keys (state_dict_of "" m)) sd)
       (size_mismatches (load_params "" sd m).2)).
Proof. reflexivity. Qed.

(** A strict load raises on a missing key and on an unknown key. *)
Lemma load_strict_rejects m sd :
  (exists k, k ∈ dict_keys (state_dict_of "" m) /\ dict_get sd k = None) \/
  (exists k, k ∈ dict_keys sd /\ k ∉ dict_keys (state_dict_of "" m)) ->
  (load_state_dict m sd true).2 = Raise RuntimeError.
Proof.
  rewrite load_state_dict_unfold. cbn [snd].
  intros [(k & Hin & Hget)|(k & Hin & Hnot)]; apply load_outcome_raise; left;
    (split; [done|]).
  - left. apply state_dict_of_key_inv in Hin as (kp & Hin & ->).
    by eapply load_params_missing.
  - right. by eapply unexpected_keys_elem.
Qed.

(** A mapping with exactly the keys of the module and the right shapes is
    accepted, and afterwards the module holds exactly its values. *)
Lemma load_exact m sd strict :
  same_keys sd m -> shapes_agree "" sd m ->
  (load_state_dict m sd strict).2 = Ok ([], []) /\
  (forall k, dict_get (state_dict_of "" (load_state_dict m sd strict).1) k
             = dict_get sd k) /\
  signature (load_state_dict m sd strict).1 = signature m.
Proof.
  intros Hkeys Hsh. rewrite load_state_dict_unfold. cbn [fst snd].
  destruct (load_params_ok "" sd m) as (Hmiss & Hmis & Hall); [|done|].
  { intros kp Hin. apply dict_get_is_Some, Hkeys.
    by apply (state_dict_of_elem "" m kp). }
  rewrite Hmiss, Hmis, unexpected_keys_nil by (intros k; apply Hkeys).
  split_and!; [by apply load_outcome_ok | | apply load_params_signature].
  intros k.
  destruct (decide (k ∈ dict_keys (state_dict_of "" (load_params "" sd m).1)))
    as [Hin|Hin].
  - by apply dict_get_state_dict_loaded.
  - pose proof Hin as Hin'.
    rewrite (signature_keys "" _ m) in Hin' by apply load_params_signature.
    apply dict_get_None in Hin. rewrite Hin. symmetry.
    apply dict_get_None. intros Hk. by apply Hin', Hkeys.
Qed.

Lemma model_eta ms :
  {| _body := _body ms; _head := _head ms; training := training ms |} = ms.
Proof. by destruct ms. Qed.
End ModuleLoad.

(** ** Claims about [ModelSplit] *)

Section SplitClaims.
Context `{TD : TensorData}.
Implicit Types (m : Module) (sd : StateDict) (ms : ModelSplit).

(** C7. The setters of [body] and [head] are strict: a mapping that lacks
    a key of the sub-module, or that has a key the sub-module does not
    know, raises; a mapping with exactly the keys of the sub-module and
    tensors of the right shapes is accepted, and afterwards every
    parameter of the sub-module holds the mapped value while the other
    sub-module is left alone. *)
Theorem setters_are_strict ms sd :
  (((exists k, k ∈ dict_keys (state_dict_of "" (body ms)) /\ dict_get sd k = None) \/
    (exists k, k ∈ dict_keys sd /\ k ∉ dict_keys (state_dict_of "" (body ms))) ->
    (set_body ms sd).2 = Raise RuntimeError) /\
   (same_keys sd (body ms) -> shapes_agree "" sd (body ms) ->
    (set_body ms sd).2 = Ok ([], []) /\
    (forall k, dict_get (state_dict_of "" (body (set_body ms sd).1)) k
               = dict_get sd k) /\
    head (set_body ms sd).1 = head ms)) /\
  (((exists k, k ∈ dict_keys (state_dict_of "" (head ms)) /\ dict_get sd k = None) \/
    (exists k, k ∈ dict_keys sd /\ k ∉ dict_keys (state_dict_of "" (head ms))) ->
    (set_head ms sd).2 = Raise RuntimeError) /\
   (same_keys sd (head ms) -> shapes_agree "" sd (head ms) ->
    (set_head ms sd).2 = Ok ([], []) /\
    (forall k, dict_get (state_dict_of "" (head (set_head ms sd).1)) k
               = dict_get sd k) /\
    body (set_head ms sd).1 = body ms)).
Proof.
  unfold set_body, set_head.
  split; split.
  - intros Hbad. apply load_strict_rejects in Hbad.
    destruct (load_state_dict (body ms) sd true) as [b r]. exact Hbad.
  - intros Hkeys Hsh.
    destruct (load_exact (body ms) sd true Hkeys Hsh) as (Hok & Hget & _).
    destruct (load_state_dict (body ms) sd true) as [b r]. by split_and!.
  - intros Hbad. apply load_strict_rejects in Hbad.
    destruct (load_state_dict (head ms) sd true) as [h r]. exact Hbad.
  - intros Hkeys Hsh.
    destruct (load_exact (head ms) sd true Hkeys Hsh) as (Hok & Hget & _).
    destruct (load_state_dict (head ms) sd true) as [h r]. by split_and!.
Qed.
End SplitClaims.

Section MoreDictFacts.
Context {V : Type}.
Implicit Types (d items : list (string * V)) (k : string) (v : V).

Lemma dict_get_elem d k v :
  NoDup (dict_keys d) -> (k, v) ∈ d -> dict_get d k = Some v.
Proof.
  unfold dict_keys. induction d as [|[k' v'] d IH]; intros Hnd Hin.
  - by apply elem_of_nil in Hin.
  - csimpl in *. apply NoDup_cons in Hnd as [Hk' Hnd].
    apply elem_of_cons in Hin as [Heq|Hin].
    + injection Heq as -> ->. by rewrite decide_True.
    + rewrite decide_False; [by apply IH|].
      intros ->. apply Hk'. apply list_elem_of_fmap. by exists (k', v).
Qed.

Lemma dict_get_py_dict items k :
  NoDup (dict_keys items) -> dict_get (py_dict items) k = dict_get items k.
Proof.
  intros Hnd. unfold py_dict. rewrite dict_get_update by done.
  by destruct (dict_get items k).
Qed.

Lemma dict_keys_update_elem d items k :
  k ∈ dict_keys (dict_update d items) <-> k ∈ dict_keys d \/ k ∈ dict_keys items.
Proof.
  unfold dict_update. revert d.
  induction items as [|[k0 v0] items IH]; intros d; csimpl.
  - change (dict_keys (@nil (string * V))) with (@nil string).
    rewrite elem_of_nil. tauto.
  - change (dict_keys ((k0, v0) :: items)) with (k0 :: dict_keys items).
    rewrite IH, dict_keys_set, elem_of_cons. case_decide as Hin.
    + split; [tauto|]. intros [?|[->|?]]; tauto.
    + rewrite elem_of_app, list_elem_of_singleton. tauto.
Qed.

(** Updating with keys the dictionary already has keeps its keys. *)
Lemma dict_keys_update_same d items :
  dict_keys items ⊆ dict_keys d -> dict_keys (dict_update d items) = dict_keys d.
Proof.
  unfold dict_update. revert d.
  induction items as [|[k0 v0] items IH]; intros d Hsub; csimpl; [done|].
  assert (dict_keys (dict_set d k0 v0) = dict_keys d) as Hset.
  { rewrite dict_keys_set, decide_True; [done|]. apply Hsub. left. }
  rewrite IH; [done|]. rewrite Hset. intros x Hx. apply Hsub. by right.
Qed.

Lemma dict_get_of_Forall d d' k :
  Forall (fun kv => dict_get d' kv.1 = Some kv.2) d ->
  k ∈ dict_keys d -> dict_get d k = dict_get d' k.
Proof.
  intros Hall Hin.
  induction Hall as [|[k' v'] d Hkv _ IH]; [by apply elem_of_nil in Hin|].
  cbn [dict_get]. cbn [fst snd] in Hkv.
  case_decide as Hk; [subst; by rewrite Hkv|].
  apply IH. unfold dict_keys in Hin. csimpl in Hin.
  apply elem_of_cons in Hin as [?|?]; done.
Qed.

Lemma zip_keys_values d : zip (dict_keys d) (dict_values d) = d.
Proof.
  unfold dict_keys, dict_values.
  induction d as [|[k v] d IH]; csimpl; [done|]. by rewrite IH.
Qed.
End MoreDictFacts.

Section SetParameters.
Context `{TD : TensorData}.
Implicit Types (m : Module) (sd : StateDict) (ms : ModelSplit).

Lemma split_load_unfold ms sd strict :
  split_load_state_dict ms sd strict =
    ({| _body := (load_params body_prefix sd (body ms)).1;
        _head := (load_params head_prefix sd (head ms)).1;
        training := training ms |},
     load_outcome strict
       (missing_keys ((load_params body_prefix sd (body ms)).2
                      ++ (load_params head_prefix sd (head ms)).2))
       (unexpected_keys (dict_keys (state_dict ms)) sd)
       (size_mismatches ((load_params body_prefix sd (body ms)).2
                         ++ (load_params head_prefix sd (head ms)).2))).
Proof. reflexivity. Qed.

Lemma missing_keys_app (a b : list LoadIssue) :
  missing_keys (a ++ b) = missing_keys a ++ missing_keys b.
Proof. apply omap_app. Qed.

Lemma size_mismatches_app (a b : list LoadIssue) :
  size_mismatches (a ++ b) = size_mismatches a ++ size_mismatches b.
Proof. apply omap_app. Qed.

Lemma state_dict_keys ms :
  dict_keys (state_dict ms) =
    dict_keys (state_dict_of body_prefix (body ms))
    ++ dict_keys (state_dict_of head_prefix (head ms)).
Proof. unfold state_dict, dict_keys. by rewrite fmap_app. Qed.

Lemma state_dict_elem_body ms kp :
  kp ∈ body ms -> (body_prefix +:+ kp.1, data kp.2) ∈ state_dict ms.
Proof.
  intros Hin. unfold state_dict. apply elem_of_app. left.
  unfold state_dict_of. apply list_elem_of_fmap. by exists kp.
Qed.

Lemma state_dict_elem_head ms kp :
  kp ∈ head ms -> (head_prefix +:+ kp.1, data kp.2) ∈ state_dict ms.
Proof.
  intros Hin. unfold state_dict. apply elem_of_app. right.
  unfold state_dict_of. apply list_elem_of_fmap. by exists kp.
Qed.

(** Loading a dictionary that has every key of the model, with the right
    shapes, into the whole model. *)
Lemma split_load_ok ms sd :
  dict_keys (state_dict ms) ⊆ dict_keys sd ->
  shapes_agree body_prefix sd (body ms) ->
  shapes_agree head_prefix sd (head ms) ->
  (split_load_state_dict ms sd false).2
    = Ok ([], unexpected_keys (dict_keys (state_dict ms)) sd) /\
  dict_keys (state_dict (split_load_state_dict ms sd false).1)
    = dict_keys (state_dict ms) /\
  Forall (fun kv => dict_get sd kv.1 = Some kv.2)
    (state_dict (split_load_state_dict ms sd false).1).
Proof.
  intros Hsub Hb Hh. rewrite split_load_unfold. cbn [fst snd].
  destruct (load_params_ok body_prefix sd (body ms)) as (Hb1 & Hb2 & Hb3); [|done|].
  { intros kp Hin. apply dict_get_is_Some, Hsub.
    apply (list_elem_of_fmap_2 fst _ _ (state_dict_elem_body ms kp Hin)). }
  destruct (load_params_ok head_prefix sd (head ms)) as (Hh1 & Hh2 & Hh3); [|done|].
  { intros kp Hin. apply dict_get_is_Some, Hsub.
    apply (list_elem_of_fmap_2 fst _ _ (state_dict_elem_head ms kp Hin)). }
  rewrite missing_keys_app, size_mismatches_app, Hb1, Hb2, Hh1, Hh2.
  split_and!.
  - by apply load_outcome_ok.
  - rewrite !state_dict_keys. unfold body, head. cbn [_body _head].
    f_equal; apply signature_keys, load_params_signature.
  - unfold state_dict, body, head. cbn [_body _head]. by apply Forall_app.
Qed.
End SetParameters.

Section SetParametersClaims.
Context `{TD : TensorData}.
Implicit Types (m : Module) (sd : StateDict) (ms : ModelSplit).

Lemma ordered_state_dict_get ms sd k :
  NoDup (dict_keys sd) ->
  dict_get (dict_update (state_dict ms) (py_dict sd)) k =
    match dict_get sd k with Some t => Some t | None => dict_get (state_dict ms) k end.
Proof.
  intros Hnd. rewrite dict_get_update by apply py_dict_NoDup.
  by rewrite dict_get_py_dict.
Qed.

Lemma ordered_shapes_agree ms sd prefix m :
  NoDup (dict_keys (state_dict ms)) -> NoDup (dict_keys sd) ->
  (forall k t t', dict_get sd k = Some t -> dict_get (state_dict ms) k = Some t' ->
                  t_shape t = t_shape t') ->
  (forall kp, kp ∈ m -> (prefix +:+ kp.1, data kp.2) ∈ state_dict ms) ->
  shapes_agree prefix (dict_update (state_dict ms) (py_dict sd)) m.
Proof.
  intros Hnd Hsd Hsh Hin kp t Hkp Hget.
  rewrite ordered_state_dict_get in Hget by done.
  pose proof (dict_get_elem _ _ _ Hnd (Hin kp Hkp)) as Hown.
  destruct (dict_get sd (prefix +:+ kp.1)) as [t0|] eqn:E.
  - injection Hget as <-. by eapply Hsh.
  - congruence.
Qed.

(** With well-shaped tensors, [set_parameters] loads the merged dictionary
    into the model: nothing is missing, and every tensor of the model is
    the one the merged dictionary has under its key. *)
Lemma set_parameters_loads ms sd :
  NoDup (dict_keys (state_dict ms)) ->
  NoDup (dict_keys sd) ->
  (forall k t t', dict_get sd k = Some t -> dict_get (state_dict ms) k = Some t' ->
                  t_shape t = t_shape t') ->
  (set_parameters ms sd).2
    = Ok ([], unexpected_keys (dict_keys (state_dict ms))
                (dict_update (state_dict ms) (py_dict sd))) /\
  dict_keys (state_dict (set_parameters ms sd).1) = dict_keys (state_dict ms) /\
  Forall (fun kv => dict_get (dict_update (state_dict ms) (py_dict sd)) kv.1 = Some kv.2)
    (state_dict (set_parameters ms sd).1).
Proof.
  intros Hnd Hsd Hsh. unfold set_parameters.
  apply split_load_ok.
  - apply dict_keys_update.
  - apply ordered_shapes_agree; [done..|]. apply state_dict_elem_body.
  - apply ordered_shapes_agree; [done..|]. apply state_dict_elem_head.
Qed.

Lemma ordered_state_dict_keys ms sd k :
  k ∈ dict_keys (dict_update (state_dict ms) (py_dict sd)) <->
  k ∈ dict_keys (state_dict ms) \/ k ∈ dict_keys sd.
Proof.
  rewrite dict_keys_update_elem. unfold py_dict.
  rewrite dict_keys_update_elem.
  change (dict_keys (@nil (string * Tensor))) with (@nil string).
  rewrite elem_of_nil. tauto.
Qed.

Lemma from_numpy_numpy (t : Tensor) : from_numpy (numpy t) = t.
Proof. by destruct t. Qed.

Lemma dict_values_state_dict_of prefix m :
  dict_values (state_dict_of prefix m) = map (fun kp => data kp.2) m.
Proof. unfold dict_values, state_dict_of. by rewrite <- list_fmap_compose. Qed.

Lemma from_numpy_numpy_list (l : list Tensor) : from_numpy <$> map numpy l = l.
Proof.
  induction l as [|t l IH]; csimpl; [done|].
  by rewrite from_numpy_numpy, IH.
Qed.

Lemma state_dict_values ms :
  dict_values (state_dict ms) =
    dict_values (state_dict_of "" (body ms)) ++ dict_values (state_dict_of "" (head ms)).
Proof.
  rewrite !dict_values_state_dict_of. unfold state_dict, dict_values.
  rewrite fmap_app. fold (dict_values (state_dict_of body_prefix (body ms))).
  fold (dict_values (state_dict_of head_prefix (head ms))).
  by rewrite !dict_values_state_dict_of.
Qed.

(** Pairing the names of the model with the arrays [get_parameters]
    returns gives back the state dictionary of the model. *)
Lemma named_parameters_state_dict ms :
  zip (dict_keys (state_dict ms)) (from_numpy <$> get_parameters ms) = state_dict ms.
Proof.
  unfold get_parameters. rewrite from_numpy_numpy_list, <- state_dict_values.
  apply zip_keys_values.
Qed.
End SetParametersClaims.

Section RoundTrip.
Context `{TD : TensorData}.
Implicit Types (m : Module) (sd : StateDict) (ms : ModelSplit).

Lemma shapes_of_state_dict_of prefix m m' :
  signature m = signature m' ->
  shapes_of (state_dict_of prefix m) = shapes_of (state_dict_of prefix m').
Proof.
  unfold signature, shapes_of, state_dict_of. revert m'.
  induction m as [|kp m IH]; intros [|kp' m'] Hsig; simplify_eq/=; [done|].
  f_equal; [congruence | by apply IH].
Qed.

Lemma shapes_of_state_dict ms ms' :
  signature (body ms') = signature (body ms) ->
  signature (head ms') = signature (head ms) ->
  shapes_of (state_dict ms') = shapes_of (state_dict ms).
Proof.
  intros Hb Hh. unfold state_dict, shapes_of. rewrite !map_app.
  f_equal; by apply shapes_of_state_dict_of.
Qed.

Lemma shapes_of_keys (d d' : StateDict) :
  shapes_of d = shapes_of d' -> dict_keys d = dict_keys d'.
Proof.
  unfold shapes_of, dict_keys. revert d'.
  induction d as [|kv d IH]; intros [|kv' d'] Hs; simplify_eq/=; [done|].
  f_equal; [done | by apply IH].
Qed.

Lemma shapes_of_get (d d' : StateDict) k t t' :
  shapes_of d = shapes_of d' ->
  dict_get d k = Some t -> dict_get d' k = Some t' -> t_shape t = t_shape t'.
Proof.
  unfold shapes_of. revert d'.
  induction d as [|[k0 v0] d IH]; intros [|[k1 v1] d'] Hs; simplify_eq/=; [done|].
  case_decide; [congruence | by apply IH].
Qed.

(** Loading into a module the values it already has changes nothing. *)
Lemma load_params_id prefix sd m :
  (forall kp, kp ∈ m -> dict_get sd (prefix +:+ kp.1) = Some (data kp.2)) ->
  (load_params prefix sd m).1 = m.
Proof.
  intros Hown. induction m as [|kp m IH]; [done|].
  rewrite load_params_cons. cbn [fst]. rewrite IH.
  - f_equal. specialize (Hown kp (list_elem_of_here _ _)).
    destruct (load_param_cases prefix sd kp)
      as [(t & Ht & _ & ->)|[(t & Ht & Hne & _)|(Hnone & _)]]; [|congruence..].
    assert (t = data kp.2) as -> by congruence.
    rewrite copy_own_data. by destruct kp.
  - intros kp' Hin. apply Hown. by right.
Qed.
End RoundTrip.

Section ParameterClaims.
Context `{TD : TensorData}.
Implicit Types (m : Module) (sd : StateDict) (ms : ModelSplit).

(** C8, as amended.  [set_parameters] merges by name: for a mapping whose
    tensors have the shapes of the parameters they name, the call is
    accepted, every key of the model that the mapping has takes the
    supplied value, every other key of the model keeps its value, and the
    keys the model does not know are only reported, not rejected. *)
Theorem set_parameters_merges ms sd :
  NoDup (dict_keys (state_dict ms)) ->
  NoDup (dict_keys sd) ->
  (forall k t t', dict_get sd k = Some t -> dict_get (state_dict ms) k = Some t' ->
                  t_shape t = t_shape t') ->
  (exists unexpected,
      (set_parameters ms sd).2 = Ok ([], unexpected) /\
      forall k, k ∈ unexpected <->
                k ∈ dict_keys sd /\ k ∉ dict_keys (state_dict ms)) /\
  dict_keys (state_dict (set_parameters ms sd).1) = dict_keys (state_dict ms) /\
  (forall k, k ∈ dict_keys (state_dict ms) ->
     dict_get (state_dict (set_parameters ms sd).1) k =
       match dict_get sd k with
       | Some t => Some t
       | None => dict_get (state_dict ms) k
       end).
Proof.
  intros Hnd Hsd Hsh.
  destruct (set_parameters_loads ms sd Hnd Hsd Hsh) as (Hok & Hkeys & Hall).
  split_and!.
  - eexists. split; [exact Hok|]. intros k. unfold unexpected_keys.
    rewrite list_elem_of_filter, ordered_state_dict_keys. tauto.
  - exact Hkeys.
  - intros k Hk.
    rewrite (dict_get_of_Forall _ _ k Hall) by (by rewrite Hkeys).
    by apply ordered_state_dict_get.
Qed.

(** Setting the state of one model on another model of the same names
    and shapes makes their states equal. *)
Lemma set_parameters_transfer ms ms' :
  NoDup (dict_keys (state_dict ms)) ->
  signature (body ms') = signature (body ms) ->
  signature (head ms') = signature (head ms) ->
  (set_parameters ms' (state_dict ms)).2 = Ok ([], []) /\
  state_dict (set_parameters ms' (state_dict ms)).1 = state_dict ms.
Proof.
  intros Hnd Hb Hh.
  pose proof (shapes_of_state_dict ms ms' Hb Hh) as Hshapes.
  pose proof (shapes_of_keys _ _ Hshapes) as Hkeys.
  destruct (set_parameters_loads ms' (state_dict ms))
    as (Hok & Hkeys' & Hall); [by rewrite Hkeys | done | |].
  { intros k t t' Ht Ht'. symmetry. by eapply shapes_of_get. }
  split.
  - rewrite Hok, unexpected_keys_nil; [done|].
    intros k Hk. apply ordered_state_dict_keys in Hk as [Hk|Hk]; [done|].
    by rewrite Hkeys.
  - apply dict_ext; [congruence | by rewrite Hkeys', Hkeys |].
    intros k. destruct (decide (k ∈ dict_keys (state_dict ms))) as [Hin|Hin].
    + rewrite (dict_get_of_Forall _ _ k Hall) by (by rewrite Hkeys', Hkeys).
      rewrite ordered_state_dict_get by done.
      by destruct (dict_get_is_Some _ _ Hin) as [t ->].
    + pose proof Hin as Hin'. rewrite <- Hkeys, <- Hkeys' in Hin'.
      apply dict_get_None in Hin, Hin'. congruence.
Qed.

(** Setting on a model its own state leaves the model as it is. *)
Lemma set_parameters_own_state ms :
  NoDup (dict_keys (state_dict ms)) ->
  set_parameters ms (state_dict ms) = (ms, Ok ([], [])).
Proof.
  intros Hnd.
  destruct (set_parameters_transfer ms ms Hnd eq_refl eq_refl) as [Hok _].
  rewrite (surjective_pairing (set_parameters ms (state_dict ms))), Hok.
  f_equal. unfold set_parameters. rewrite split_load_unfold. cbn [fst].
  rewrite !load_params_id; [apply model_eta | |].
  - intros kp Hin. rewrite ordered_state_dict_get by done.
    rewrite (dict_get_elem _ _ _ Hnd (state_dict_elem_head ms kp Hin)). done.
  - intros kp Hin. rewrite ordered_state_dict_get by done.
    rewrite (dict_get_elem _ _ _ Hnd (state_dict_elem_body ms kp Hin)). done.
Qed.

(** C6. [get_parameters] returns the tensors of the body and then those of
    the head, as arrays, in the order of their state dictionaries; there
    are as many as the body and the head have tensors; and setting them
    back under the names of the model restores every tensor: on the model
    itself nothing changes, and another model of the same names and shapes
    ends with exactly the state of the first. *)
Theorem get_set_parameters_roundtrip ms ms' :
  NoDup (dict_keys (state_dict ms)) ->
  signature (body ms') = signature (body ms) ->
  signature (head ms') = signature (head ms) ->
  let named := zip (dict_keys (state_dict ms)) (from_numpy <$> get_parameters ms) in
  get_parameters ms =
    map numpy (dict_values (state_dict_of "" (body ms)))
    ++ map numpy (dict_values (state_dict_of "" (head ms))) /\
  length (get_parameters ms) = (length (body ms) + length (head ms))%nat /\
  set_parameters ms named = (ms, Ok ([], [])) /\
  (set_parameters ms' named).2 = Ok ([], []) /\
  state_dict (set_parameters ms' named).1 = state_dict ms.
Proof.
  intros Hnd Hb Hh named. unfold named.
  rewrite named_parameters_state_dict. split_and!.
  - unfold get_parameters. apply map_app.
  - unfold get_parameters, dict_values, state_dict_of.
    by rewrite length_map, length_app, !length_fmap, ?length_map.
  - by apply set_parameters_own_state.
  - by apply set_parameters_transfer.
  - by apply set_parameters_transfer.
Qed.
End ParameterClaims.

(** ** One optimisation step *)

Section StepFacts.
Context `{NW : Network}.
Implicit Types (m : Module) (ms : ModelSplit) (opt : SGD) (b : Batch)
  (bufs : list (string * Tensor)).

Lemma frame_signature m m' : frame m = frame m' -> signature m = signature m'.
Proof.
  unfold frame, signature. revert m'.
  induction m as [|kp m IH]; intros [|kp' m'] Hf; simplify_eq/=; [done|].
  f_equal; [congruence | by apply IH].
Qed.

Lemma frame_grads_set m m' flag :
  frame m = frame m' -> grads_set flag m -> grads_set flag m'.
Proof.
  unfold frame, grads_set. revert m'.
  induction m as [|kp m IH]; intros [|kp' m'] Hf Hall; simplify_eq/=;
    [by constructor|].
  apply Forall_cons in Hall as [Hkp Hall].
  constructor; [congruence | by apply IH].
Qed.

(** [requires_grad = flag] on every parameter *)
Lemma set_requires_grad_frame flag m :
  signature (set_requires_grad flag m) = signature m /\
  state_dict_of "" (set_requires_grad flag m) = state_dict_of "" m /\
  grads_set flag (set_requires_grad flag m).
Proof.
  unfold signature, state_dict_of, grads_set, set_requires_grad.
  induction m as [|kp m (IH1 & IH2 & IH3)]; [by split_and!; try constructor|].
  cbn [map fst snd data requires_grad]. rewrite IH1, IH2.
  split_and!; [done..|]. by constructor.
Qed.

Lemma clear_grad_frame m :
  frame (clear_grad m) = frame m /\
  state_dict_of "" (clear_grad m) = state_dict_of "" m /\
  Forall (fun kp => grad kp.2 = None) (clear_grad m).
Proof.
  unfold frame, state_dict_of, clear_grad.
  induction m as [|kp m (IH1 & IH2 & IH3)]; [by split_and!; try constructor|].
  cbn [map fst snd data requires_grad grad]. rewrite IH1, IH2.
  split_and!; [done..|]. by constructor.
Qed.

Lemma accumulate_grad_frame (p : Param) (g : Data) :
  data (accumulate_grad p g) = data p /\
  requires_grad (accumulate_grad p g) = requires_grad p.
Proof. unfold accumulate_grad. destruct (requires_grad p) eqn:E; cbn; auto. Qed.

Lemma backward_module_frame prefix mode st b m :
  frame (backward_module prefix mode st b m) = frame m /\
  state_dict_of "" (backward_module prefix mode st b m) = state_dict_of "" m.
Proof.
  unfold frame, state_dict_of, backward_module.
  induction m as [|kp m (IH1 & IH2)]; [done|].
  cbn [map fst snd]. rewrite IH1, IH2.
  by destruct (accumulate_grad_frame kp.2 (gradient mode st b (prefix +:+ kp.1)))
    as [-> ->].
Qed.

(** Autograd does not reach a parameter that requires no gradient. *)
Lemma backward_module_frozen prefix mode st b m :
  grads_set false m -> backward_module prefix mode st b m = m.
Proof.
  unfold backward_module, grads_set.
  induction 1 as [|kp m Hkp _ IH]; [done|].
  cbn [map]. rewrite IH. f_equal. unfold accumulate_grad. rewrite Hkp.
  by destruct kp.
Qed.

Lemma sgd_param_frame opt key (p : Param) bufs :
  t_shape (data (sgd_param opt key p bufs).1) = t_shape (data p) /\
  requires_grad (sgd_param opt key p bufs).1 = requires_grad p /\
  dict_keys bufs ⊆ dict_keys (sgd_param opt key p bufs).2.
Proof.
  unfold sgd_param. destruct (grad p) as [g|]; [|done].
  destruct (Qeq_bool (momentum opt) 0); cbn [fst snd]; [done|].
  split_and!; [done..|]. apply dict_keys_set_subseteq.
Qed.

Lemma sgd_module_cons opt prefix kp m bufs :
  sgd_module opt prefix (kp :: m) bufs =
    let r := sgd_param opt (prefix +:+ kp.1) kp.2 bufs in
    let r' := sgd_module opt prefix m r.2 in
    ((kp.1, r.1) :: r'.1, r'.2).
Proof.
  cbn [sgd_module]. destruct (sgd_param opt (prefix +:+ kp.1) kp.2 bufs) as [p' bufs1].
  cbn [fst snd]. by destruct (sgd_module opt prefix m bufs1).
Qed.

Lemma sgd_module_frame opt prefix m bufs :
  frame (sgd_module opt prefix m bufs).1 = frame m /\
  dict_keys bufs ⊆ dict_keys (sgd_module opt prefix m bufs).2.
Proof.
  revert bufs. induction m as [|kp m IH]; intros bufs; [done|].
  rewrite sgd_module_cons. cbn zeta. cbn [fst snd].
  destruct (sgd_param_frame opt (prefix +:+ kp.1) kp.2 bufs) as (Hs & Hr & Hb).
  destruct (IH (sgd_param opt (prefix +:+ kp.1) kp.2 bufs).2) as [IH1 IH2].
  split; [|by etrans].
  unfold frame in *. cbn [map fst snd]. by rewrite IH1, Hs, Hr.
Qed.

(** The step skips the parameters whose gradient is [None]. *)
Lemma sgd_module_skips opt prefix m bufs :
  Forall (fun kp => grad kp.2 = None) m -> sgd_module opt prefix m bufs = (m, bufs).
Proof.
  induction 1 as [|kp m Hkp _ IH]; [done|].
  rewrite sgd_module_cons. unfold sgd_param. rewrite Hkp. cbn zeta. cbn [fst snd].
  rewrite IH. by destruct kp.
Qed.

Lemma step_unfold opt ms :
  step opt ms =
    ({| _body := (sgd_module opt body_prefix (body ms) (momentum_buffer opt)).1;
        _head := (sgd_module opt head_prefix (head ms)
                    (sgd_module opt body_prefix (body ms) (momentum_buffer opt)).2).1;
        training := training ms |},
     {| lr := lr opt; momentum := momentum opt;
        momentum_buffer :=
          (sgd_module opt head_prefix (head ms)
             (sgd_module opt body_prefix (body ms) (momentum_buffer opt)).2).2 |}).
Proof.
  unfold step.
  destruct (sgd_module opt body_prefix (body ms) (momentum_buffer opt)) as [b1 bufs1].
  cbn [fst snd]. by destruct (sgd_module opt head_prefix (head ms) bufs1).
Qed.

Lemma train_batch_unfold (st : TrainState) b :
  train_batch st b =
    {| ts_model := (step (ts_optimizer st) (backward (zero_grad (ts_model st)) b)).1;
       ts_optimizer := (step (ts_optimizer st) (backward (zero_grad (ts_model st)) b)).2;
       ts_loss := LossTensor (loss_value (training (ts_model st))
                                (state_dict (ts_model st)) b);
       ts_total := ts_total st + batch_size b;
       ts_correct := ts_correct st
                     + num_correct (training (ts_model st)) (state_dict (ts_model st)) b |}.
Proof.
  unfold train_batch. cbn zeta.
  by destruct (step (ts_optimizer st) (backward (zero_grad (ts_model st)) b)).
Qed.
End StepFacts.

(** ** Minibatches and epochs *)

Section TrainFacts.
Context `{NW : Network} `{CS : Constants}.
Implicit Types (m : Module) (ms : ModelSplit) (opt : SGD) (b : Batch)
  (st : TrainState) (loader : DataLoader) (mm : ModelManager).

Lemma batch_keeps_refl st : batch_keeps st st.
Proof. by unfold batch_keeps. Qed.

Lemma batch_keeps_trans st1 st2 st3 :
  batch_keeps st1 st2 -> batch_keeps st2 st3 -> batch_keeps st1 st3.
Proof.
  unfold batch_keeps. intros (A1 & A2 & A3 & A4 & A5) (B1 & B2 & B3 & B4 & B5).
  split_and!; [congruence..|by etrans].
Qed.

Lemma train_batch_keeps st b : batch_keeps st (train_batch st b).
Proof.
  unfold batch_keeps. rewrite train_batch_unfold, step_unfold.
  cbn zeta. cbn [ts_model ts_optimizer fst snd body head _body _head lr momentum
                 momentum_buffer].
  set (ms := ts_model st). set (opt := ts_optimizer st).
  set (b1 := body (backward (zero_grad ms) b)).
  set (h1 := head (backward (zero_grad ms) b)).
  destruct (sgd_module_frame opt body_prefix b1 (momentum_buffer opt)) as [Hb Hbb].
  destruct (sgd_module_frame opt head_prefix h1
              (sgd_module opt body_prefix b1 (momentum_buffer opt)).2) as [Hh Hhb].
  split_and!; [| |done|done|by etrans].
  - rewrite Hb. unfold b1, backward, zero_grad, body. cbn [_body].
    rewrite (proj1 (backward_module_frame _ _ _ _ _)).
    apply clear_grad_frame.
  - rewrite Hh. unfold h1, backward, zero_grad, head. cbn [_head].
    rewrite (proj1 (backward_module_frame _ _ _ _ _)).
    apply clear_grad_frame.
Qed.

Lemma train_batches_keep bs st : batch_keeps st (fold_left train_batch bs st).
Proof.
  revert st. induction bs as [|b bs IH]; intros st; [apply batch_keeps_refl|].
  cbn [fold_left]. eapply batch_keeps_trans; [apply train_batch_keeps | apply IH].
Qed.

(** A head that requires no gradient comes out of a minibatch step with
    the values it had. *)
Lemma train_batch_frozen_head st b :
  grads_set false (head (ts_model st)) ->
  head (ts_model (train_batch st b)) = clear_grad (head (ts_model st)).
Proof.
  intros Hfrozen. rewrite train_batch_unfold, step_unfold.
  cbn zeta. cbn [ts_model fst snd head _head].
  unfold backward, zero_grad, head. cbn [_head training].
  destruct (clear_grad_frame (_head (ts_model st))) as (Hf & _ & Hnone).
  rewrite backward_module_frozen by (by eapply frame_grads_set).
  by rewrite sgd_module_skips.
Qed.

Lemma train_batches_frozen_head bs st :
  grads_set false (head (ts_model st)) ->
  state_dict_of "" (head (ts_model (fold_left train_batch bs st)))
    = state_dict_of "" (head (ts_model st)).
Proof.
  revert st. induction bs as [|b bs IH]; intros st Hfrozen; [done|].
  cbn [fold_left].
  destruct (clear_grad_frame (head (ts_model st))) as (Hf & Hsd & _).
  rewrite IH; rewrite train_batch_frozen_head by done; [done|].
  by eapply frame_grads_set.
Qed.

(** *** Epochs *)

Lemma train_epoch_head loader nl st i :
  i < nl -> train_epoch loader nl st i = head_epoch loader st.
Proof. intros Hi. unfold train_epoch, head_epoch. by rewrite decide_True. Qed.

Lemma train_epoch_rep loader nl st i :
  nl <= i -> train_epoch loader nl st i = rep_epoch loader st.
Proof.
  intros Hi. unfold train_epoch, rep_epoch. by rewrite decide_False by lia.
Qed.

Lemma train_epoch_cases loader nl st i :
  train_epoch loader nl st i = head_epoch loader st \/
  train_epoch loader nl st i = rep_epoch loader st.
Proof.
  destruct (decide (i < nl)); [left; by apply train_epoch_head|].
  right. apply train_epoch_rep. lia.
Qed.

(** The representation phase leaves the values of the head alone. *)
Lemma rep_epoch_head_unchanged loader st :
  state_dict_of "" (head (ts_model (rep_epoch loader st)))
    = state_dict_of "" (head (ts_model st)).
Proof.
  unfold rep_epoch.
  destruct (set_requires_grad_frame false (head (enable_body (ts_model st))))
    as (_ & Hsd & Hset).
  rewrite train_batches_frozen_head; [exact Hsd | exact Hset].
Qed.

Lemma epoch_keeps_refl st : epoch_keeps st st.
Proof. by unfold epoch_keeps. Qed.

Lemma epoch_keeps_trans st1 st2 st3 :
  epoch_keeps st1 st2 -> epoch_keeps st2 st3 -> epoch_keeps st1 st3.
Proof.
  unfold epoch_keeps. intros (A1 & A2 & A3 & A4 & A5) (B1 & B2 & B3 & B4 & B5).
  split_and!; [congruence..|by etrans].
Qed.

Lemma head_epoch_keeps loader st : epoch_keeps st (head_epoch loader st).
Proof.
  unfold head_epoch.
  destruct (train_batches_keep (batches loader)
              (with_ts_model st (enable_head (disable_body (ts_model st)))))
    as (Hb & Hh & Hlr & Hmu & Hbuf).
  apply frame_signature in Hb, Hh.
  split_and!; [rewrite Hb|rewrite Hh|done..];
    cbn [with_ts_model ts_model enable_head disable_body body head _body _head];
    apply set_requires_grad_frame.
Qed.

Lemma rep_epoch_keeps loader st : epoch_keeps st (rep_epoch loader st).
Proof.
  unfold rep_epoch.
  destruct (train_batches_keep (batches loader)
              (with_ts_model st (disable_head (enable_body (ts_model st)))))
    as (Hb & Hh & Hlr & Hmu & Hbuf).
  apply frame_signature in Hb, Hh.
  split_and!; [rewrite Hb|rewrite Hh|done..];
    cbn [with_ts_model ts_model disable_head enable_body body head _body _head];
    apply set_requires_grad_frame.
Qed.

Lemma train_epoch_keeps loader nl st i : epoch_keeps st (train_epoch loader nl st i).
Proof.
  destruct (train_epoch_cases loader nl st i) as [->| ->];
    [apply head_epoch_keeps | apply rep_epoch_keeps].
Qed.

Lemma train_epochs_keep loader nl (l : list Z) st :
  epoch_keeps st (fold_left (train_epoch loader nl) l st).
Proof.
  revert st. induction l as [|i l IH]; intros st; [apply epoch_keeps_refl|].
  cbn [fold_left]. eapply epoch_keeps_trans; [apply train_epoch_keeps | apply IH].
Qed.
End TrainFacts.

(** ** The loop of [train] *)

Section LoopFacts.
Context `{NW : Network} `{CS : Constants}.
Implicit Types (st : TrainState) (loader : DataLoader) (mm : ModelManager).

Lemma range_length n : length (range n) = Z.to_nat n.
Proof. unfold range. by rewrite length_map, length_seq. Qed.

Lemma range_lookup n (j : nat) x : range n !! j = Some x -> x = Z.of_nat j.
Proof.
  unfold range. change (map Z.of_nat) with (fmap (M := list) Z.of_nat).
  rewrite list_lookup_fmap. intros Hx.
  destruct (seq 0 (Z.to_nat n) !! j) as [y|] eqn:E; simplify_eq/=.
  apply lookup_seq in E as [-> _]. done.
Qed.

Lemma range_elem n x : x ∈ range n -> 0 <= x < n.
Proof.
  intros Hin. apply list_elem_of_lookup in Hin as [j Hj].
  pose proof (range_lookup _ _ _ Hj) as ->.
  apply lookup_lt_Some in Hj. rewrite range_length in Hj. lia.
Qed.

Lemma range_app a b :
  0 <= a -> 0 <= b -> range (a + b) = range a ++ (Z.add a <$> range b).
Proof.
  intros Ha Hb. unfold range.
  change (map Z.of_nat) with (fmap (M := list) Z.of_nat).
  rewrite Z2Nat.inj_add, seq_app, fmap_app by done. f_equal.
  rewrite <- list_fmap_compose.
  rewrite Nat.add_0_l, <- (Nat.add_0_r (Z.to_nat a)) at 1.
  rewrite <- (fmap_add_seq (Z.to_nat a) 0), <- list_fmap_compose.
  apply list_fmap_ext. intros _ j _. cbn. lia.
Qed.

Lemma fold_left_same {S I} (f : S -> I -> S) (g : S -> S) (l : list I) (s : S) :
  (forall s i, i ∈ l -> f s i = g s) ->
  fold_left f l s = Nat.iter (length l) g s.
Proof.
  revert s. induction l as [|i l IH]; intros s Hsame; [done|].
  cbn [fold_left length]. rewrite Nat.iter_succ_r, <- (Hsame s i) by left.
  apply IH. intros s' i' Hi'. apply Hsame. by right.
Qed.


(** For any two integers: the loop runs [range(nl + nr)], whose first
    [nl] indices (as far as there are any) are head epochs and whose other
    indices are representation epochs. *)
Lemma train_loop_any_counts mm nl nr :
  train_loop mm nl nr =
    Nat.iter (Z.to_nat (nl + nr) - Z.to_nat nl) (rep_epoch (trainloader mm))
      (Nat.iter (Z.to_nat nl `min` Z.to_nat (nl + nr)) (head_epoch (trainloader mm))
         (train_init mm)).
Proof.
  unfold train_loop. set (l := range (nl + nr)).
  rewrite <- (take_drop (Z.to_nat nl) l), fold_left_app.
  rewrite (fold_left_same _ (head_epoch (trainloader mm)) (take _ l)).
  - rewrite (fold_left_same _ (rep_epoch (trainloader mm)) (drop _ l)).
    + unfold l. by rewrite length_take, length_drop, !range_length.
    + intros s i Hi. apply list_elem_of_lookup in Hi as [j Hj].
      rewrite lookup_drop in Hj. apply range_lookup in Hj.
      apply train_epoch_rep. lia.
  - intros s i Hi. apply list_elem_of_lookup in Hi as [j Hj].
    apply lookup_take_Some in Hj as [Hj Hlt]. apply range_lookup in Hj.
    apply train_epoch_head. lia.
Qed.

Lemma train_loop_upto_all mm nl nr :
  train_loop mm nl nr = train_loop_upto mm nl nr (Z.to_nat (nl + nr)).
Proof.
  unfold train_loop, train_loop_upto.
  by rewrite take_ge by (by rewrite range_length).
Qed.

(** The first [num_local_epochs] epochs of the loop are the head phase. *)
Lemma train_loop_upto_phase_A mm nl nr :
  0 <= nr -> train_loop_upto mm nl nr (Z.to_nat nl) = phase_A mm nl.
Proof.
  intros Hnr. unfold train_loop_upto, phase_A.
  destruct (decide (0 <= nl)) as [Hnl|Hnl].
  - rewrite range_app by done.
    rewrite take_app_length' by (by rewrite range_length).
    rewrite (fold_left_same _ (head_epoch (trainloader mm))).
    + by rewrite range_length.
    + intros s i Hi. apply range_elem in Hi. apply train_epoch_head. lia.
  - by rewrite Z2Nat.nonpos by lia.
Qed.

(** Epochs of the representation phase do not move the head. *)
Lemma rep_epochs_head_unchanged loader nl (l : list Z) st :
  (forall i, i ∈ l -> nl <= i) ->
  state_dict_of "" (head (ts_model (fold_left (train_epoch loader nl) l st)))
    = state_dict_of "" (head (ts_model st)).
Proof.
  revert st. induction l as [|i l IH]; intros st Hl; [done|].
  cbn [fold_left]. rewrite IH by (intros j Hj; apply Hl; by right).
  rewrite train_epoch_rep by (apply Hl; left).
  apply rep_epoch_head_unchanged.
Qed.

Lemma train_loop_upto_head mm nl nr (k : nat) :
  (Z.to_nat nl <= k)%nat ->
  state_dict_of "" (head (ts_model (train_loop_upto mm nl nr k)))
    = state_dict_of "" (head (ts_model (train_loop_upto mm nl nr (Z.to_nat nl)))).
Proof.
  intros Hk. unfold train_loop_upto.
  set (l := range (nl + nr)).
  rewrite <- (take_drop (Z.to_nat nl) (take k l)) at 1.
  rewrite fold_left_app, take_take, Nat.min_l by done.
  apply rep_epochs_head_unchanged.
  intros i Hi. apply list_elem_of_lookup in Hi as [j Hj].
  rewrite lookup_drop in Hj. apply lookup_take_Some in Hj as [Hj _].
  apply range_lookup in Hj. lia.
Qed.



Lemma rep_phase_flags_kept st bs :
  rep_phase_flags
    (ts_model (fold_left train_batch bs
                 (with_ts_model st (disable_head (enable_body (ts_model st)))))).
Proof.
  destruct (train_batches_keep bs
              (with_ts_model st (disable_head (enable_body (ts_model st)))))
    as (Hb & Hh & _).
  split; (eapply frame_grads_set; [symmetry; eassumption|]);
    cbn [with_ts_model ts_model disable_head enable_body body head _body _head];
    apply set_requires_grad_frame.
Qed.
End LoopFacts.

(** ** What a minibatch does to a parameter that requires a gradient *)

Section SgdStep.
Context `{NW : Network} `{CS : Constants}.
Implicit Types (m : Module) (ms : ModelSplit) (opt : SGD) (b : Batch)
  (st : TrainState) (bufs : list (string * Tensor)).











End SgdStep.

(** ** Claims about the training loop *)

Section TrainClaims.
Context `{NW : Network} `{CS : Constants}.
Implicit Types (st : TrainState) (loader : DataLoader) (mm : ModelManager).





(** C2. The representation phase does not change the values of the head.
    With the epoch counts [nl] and [nr] of [train]: after any number of
    epochs past the head phase, at the end of the loop, and in the model
    [train] leaves behind, the head holds what it held when the head phase
    ended.  This is so for every model, every training loader and every
    epoch counts; one representation epoch, from any state, leaves the head
    as it was. *)
Theorem rep_phase_keeps_head mm fs :
  let nl := resolve DEFAULT_LOCAL_TRAIN_EPOCHS (num_local_epochs (config mm)) in
  let nr := resolve DEFAULT_REPRESENTATION_EPOCHS (num_rep_epochs (config mm)) in
  (forall k : nat, (Z.to_nat nl <= k)%nat ->
     state_dict_of "" (head (ts_model (train_loop_upto mm nl nr k)))
       = state_dict_of "" (head (ts_model (train_loop_upto mm nl nr (Z.to_nat nl))))) /\
  state_dict_of "" (head (ts_model (train_loop mm nl nr)))
    = state_dict_of "" (head (ts_model (train_loop_upto mm nl nr (Z.to_nat nl)))) /\
  state_dict_of "" (head (model (train_loaded mm fs).1.1))
    = state_dict_of "" (head (ts_model (train_loop_upto mm nl nr (Z.to_nat nl)))) /\
  (0 <= nr -> train_loop_upto mm nl nr (Z.to_nat nl) = phase_A mm nl) /\
  (0 <= nr ->
   state_dict_of "" (head (model (train_loaded mm fs).1.1))
     = state_dict_of "" (head (ts_model (phase_A mm nl)))) /\
  (forall st,
     state_dict_of "" (head (ts_model (rep_epoch (trainloader mm) st)))
       = state_dict_of "" (head (ts_model st))).
Proof.
  intros nl nr.
  assert (state_dict_of "" (head (ts_model (train_loop mm nl nr)))
          = state_dict_of "" (head (ts_model (train_loop_upto mm nl nr (Z.to_nat nl)))))
    as Hend.
  { destruct (decide (Z.to_nat nl <= Z.to_nat (nl + nr))%nat) as [Hle|Hgt].
    - rewrite train_loop_upto_all. by apply train_loop_upto_head.
    - rewrite train_loop_upto_all. unfold train_loop_upto.
      rewrite !take_ge; [done|rewrite range_length; lia..]. }
  split_and!.
  - intros k Hk. by apply train_loop_upto_head.
  - exact Hend.
  - exact Hend.
  - apply train_loop_upto_phase_A.
  - intros Hnr. rewrite <- (train_loop_upto_phase_A mm nl nr Hnr). exact Hend.
  - apply rep_epoch_head_unchanged.
Qed.

(** When no minibatch is ever processed, the loop leaves [loss], [correct]
    and [total] as they were initialised. *)
Lemma train_loop_idle mm nl nr :
  batches (trainloader mm) = [] \/ (nl = 0 /\ nr = 0) ->
  ts_loss (train_loop mm nl nr) = FloatObj 0 /\
  ts_correct (train_loop mm nl nr) = 0 /\
  ts_total (train_loop mm nl nr) = 0.
Proof.
  intros [Hnone|[-> ->]]; [|done].
  unfold train_loop. generalize (range (nl + nr)).
  assert (forall st i, ts_loss (train_epoch (trainloader mm) nl st i) = ts_loss st /\
                       ts_correct (train_epoch (trainloader mm) nl st i) = ts_correct st /\
                       ts_total (train_epoch (trainloader mm) nl st i) = ts_total st)
    as Hepoch.
  { intros st i. unfold train_epoch. rewrite Hnone. done. }
  assert (forall l st,
             ts_loss (fold_left (train_epoch (trainloader mm) nl) l st) = ts_loss st /\
             ts_correct (fold_left (train_epoch (trainloader mm) nl) l st) = ts_correct st /\
             ts_total (fold_left (train_epoch (trainloader mm) nl) l st) = ts_total st)
    as Hfold.
  { induction l as [|i l IH]; intros st; [done|].
    cbn [fold_left]. destruct (IH (train_epoch (trainloader mm) nl st i)) as (-> & -> & ->).
    apply Hepoch. }
  intros l. destruct (Hfold l (train_init mm)) as (-> & -> & ->). done.
Qed.
End TrainClaims.

(** ** The client state file *)

Section ClientState.
Context `{NW : Network} `{CS : Constants}.
Implicit Types (mm : ModelManager) (fs : gmap string StateDict).

Lemma load_client_state_present mm fs path saved :
  client_save_path mm = Some path -> fs !! path = Some saved ->
  load_client_state mm fs =
    (with_model mm {| _body := _body (model mm);
                      _head := (load_state_dict (head (model mm)) saved true).1;
                      training := training (model mm) |},
     match (load_state_dict (head (model mm)) saved true).2 with
     | Ok _ => Ok tt
     | Raise e => Raise e
     end).
Proof.
  intros Hpath Hfile. unfold load_client_state. rewrite Hpath, Hfile.
  by destruct (load_state_dict (head (model mm)) saved true).
Qed.

Lemma load_client_state_absent mm fs :
  ~ has_state_file mm fs -> load_client_state mm fs = (mm, Ok tt).
Proof.
  unfold has_state_file, load_client_state. intros Hno.
  destruct (client_save_path mm) as [path|]; [|done].
  destruct (fs !! path) eqn:E; [|done].
  exfalso. apply Hno. eauto.
Qed.

Lemma has_state_file_dec mm fs : has_state_file mm fs \/ ~ has_state_file mm fs.
Proof.
  unfold has_state_file. destruct (client_save_path mm) as [path|].
  - destruct (fs !! path) eqn:E.
    + left. eauto.
    + right. intros (p & Hp & [x Hx]). congruence.
  - right. intros (p & Hp & _). congruence.
Qed.

(** Loading touches the head and nothing else. *)
Lemma load_client_state_keeps mm fs :
  config (load_client_state mm fs).1 = config mm /\
  trainloader (load_client_state mm fs).1 = trainloader mm /\
  testloader (load_client_state mm fs).1 = testloader mm /\
  client_save_path (load_client_state mm fs).1 = client_save_path mm /\
  learning_rate (load_client_state mm fs).1 = learning_rate mm /\
  body (model (load_client_state mm fs).1) = body (model mm) /\
  signature (head (model (load_client_state mm fs).1)) = signature (head (model mm)).
Proof.
  destruct (has_state_file_dec mm fs) as [(path & Hpath & [saved Hfile])|Hno].
  - rewrite (load_client_state_present mm fs path saved) by done. cbn.
    split_and!; try done. apply load_params_signature.
  - by rewrite load_client_state_absent.
Qed.

Lemma train_after_load mm fs :
  (load_client_state mm fs).2 = Ok tt ->
  train mm fs = train_loaded (load_client_state mm fs).1 fs.
Proof.
  unfold train. by destruct (load_client_state mm fs) as [mm' [[]|e]].
Qed.

Lemma test_after_load mm fs :
  (load_client_state mm fs).2 = Ok tt ->
  test mm fs = test_loaded (load_client_state mm fs).1 fs.
Proof.
  unfold test. by destruct (load_client_state mm fs) as [mm' [[]|e]].
Qed.

Lemma train_load_raises mm fs e :
  (load_client_state mm fs).2 = Raise e ->
  train mm fs = (((load_client_state mm fs).1, fs), Raise e).
Proof.
  unfold train. destruct (load_client_state mm fs) as [mm' [[]|e']]; [done|].
  cbn. by intros [= ->].
Qed.

Lemma test_load_raises mm fs e :
  (load_client_state mm fs).2 = Raise e ->
  test mm fs = (((load_client_state mm fs).1, fs), Raise e).
Proof.
  unfold test. destruct (load_client_state mm fs) as [mm' [[]|e']]; [done|].
  cbn. by intros [= ->].
Qed.

Lemma load_result_cases mm fs :
  (load_client_state mm fs).2 = Ok tt \/
  exists e, (load_client_state mm fs).2 = Raise e.
Proof. destruct (load_client_state mm fs).2 as [[]|e]; eauto. Qed.

(** C9. At the start of [train] and of [test]: when the state file exists
    and holds a state of the head (its keys, with tensors of its shapes),
    the head takes the values of the file, whatever it held, and the call
    goes on from there; when there is no state file, or no path, nothing
    is raised and the call goes on with the model as it is. *)
Theorem client_state_loaded_if_present mm fs :
  (forall path saved,
      client_save_path mm = Some path -> fs !! path = Some saved ->
      same_keys saved (head (model mm)) ->
      shapes_agree "" saved (head (model mm)) ->
      (load_client_state mm fs).2 = Ok tt /\
      (forall k, dict_get (state_dict_of "" (head (model (load_client_state mm fs).1))) k
                 = dict_get saved k) /\
      body (model (load_client_state mm fs).1) = body (model mm) /\
      train mm fs = train_loaded (load_client_state mm fs).1 fs /\
      test mm fs = test_loaded (load_client_state mm fs).1 fs) /\
  (~ has_state_file mm fs ->
      load_client_state mm fs = (mm, Ok tt) /\
      train mm fs = train_loaded mm fs /\
      test mm fs = test_loaded mm fs).
Proof.
  split.
  - intros path saved Hpath Hfile Hkeys Hshapes.
    destruct (load_exact (head (model mm)) saved true Hkeys Hshapes)
      as (Hok & Hget & _).
    assert ((load_client_state mm fs).2 = Ok tt) as Hload.
    { rewrite (load_client_state_present mm fs path saved) by done.
      cbn [snd]. by rewrite Hok. }
    split_and!; [done| |apply load_client_state_keeps
                |by apply train_after_load|by apply test_after_load].
    rewrite (load_client_state_present mm fs path saved) by done. exact Hget.
  - intros Hno. pose proof (load_client_state_absent mm fs Hno) as Hload.
    split_and!; [done| |].
    + rewrite train_after_load; by rewrite Hload.
    + rewrite test_after_load; by rewrite Hload.
Qed.
End ClientState.

(** ** Claims about [train] and [test] *)

Section ManagerClaims.
Context `{NW : Network} `{CS : Constants}.
Implicit Types (mm : ModelManager) (fs : gmap string StateDict).

Lemma train_loaded_model mm fs :
  model (train_loaded mm fs).1.1 =
    ts_model (train_loop mm
                (resolve DEFAULT_LOCAL_TRAIN_EPOCHS (num_local_epochs (config mm)))
                (resolve DEFAULT_REPRESENTATION_EPOCHS (num_rep_epochs (config mm)))).
Proof. reflexivity. Qed.

(** After the loop, the head is saved whatever the [return] then does. *)
Lemma train_loaded_saves mm fs path :
  client_save_path mm = Some path ->
  (train_loaded mm fs).1.2 !! path
    = Some (state_dict_of "" (head (model (train_loaded mm fs).1.1))).
Proof.
  intros Hpath. unfold train_loaded. cbn zeta. cbn [fst snd].
  unfold save_client_state. cbn [with_model client_save_path].
  rewrite Hpath. apply lookup_insert_eq.
Qed.

Lemma train_loaded_keeps mm fs :
  client_save_path (train_loaded mm fs).1.1 = client_save_path mm /\
  signature (head (model (train_loaded mm fs).1.1)) = signature (head (model mm)).
Proof.
  split; [done|]. rewrite train_loaded_model. unfold train_loop.
  destruct (train_epochs_keep (trainloader mm)
              (resolve DEFAULT_LOCAL_TRAIN_EPOCHS (num_local_epochs (config mm)))
              (range (resolve DEFAULT_LOCAL_TRAIN_EPOCHS (num_local_epochs (config mm))
                      + resolve DEFAULT_REPRESENTATION_EPOCHS (num_rep_epochs (config mm))))
              (train_init mm)) as (_ & Hh & _).
  exact Hh.
Qed.

(** A saved head state loads into any head of the same names and shapes. *)
Lemma saved_head_compatible (h h2 : Module) :
  NoDup (dict_keys (state_dict_of "" h)) ->
  signature h2 = signature h ->
  same_keys (state_dict_of "" h) h2 /\ shapes_agree "" (state_dict_of "" h) h2.
Proof.
  intros Hnd Hsig. pose proof (signature_keys "" h2 h Hsig) as Hkeys. split.
  - intros k. by rewrite Hkeys.
  - intros kp t Hin Hget.
    eapply (shapes_of_get (state_dict_of "" h) (state_dict_of "" h2));
      [symmetry; by apply shapes_of_state_dict_of | exact Hget |].
    apply dict_get_elem; [by rewrite Hkeys|].
    unfold state_dict_of. apply list_elem_of_fmap. by exists kp.
Qed.

(** C3. For a client with a state path, [train] twice in a row: the first
    call, once its loading step has passed, writes the state the head has
    after training to the state file, whatever it then returns or raises;
    the next call on that path, by the same manager or by a new one for
    the same client, loads exactly that state into its head, and its
    training starts from it. *)
Theorem second_train_loads_saved_head mm fs path mm2 :
  client_save_path mm = Some path ->
  NoDup (dict_keys (state_dict_of "" (head (model mm)))) ->
  (load_client_state mm fs).2 = Ok tt ->
  client_save_path mm2 = Some path ->
  signature (head (model mm2)) = signature (head (model mm)) ->
  let mm1 := (train mm fs).1.1 in
  let fs1 := (train mm fs).1.2 in
  let mm2' := (load_client_state mm2 fs1).1 in
  fs1 !! path = Some (state_dict_of "" (head (model mm1))) /\
  client_save_path mm1 = Some path /\
  signature (head (model mm1)) = signature (head (model mm)) /\
  (load_client_state mm2 fs1).2 = Ok tt /\
  state_dict_of "" (head (model mm2')) = state_dict_of "" (head (model mm1)) /\
  train mm2 fs1 = train_loaded mm2' fs1 /\
  state_dict_of "" (head (ts_model (train_init mm2')))
    = state_dict_of "" (head (model mm1)).
Proof.
  intros Hpath Hnd Hload Hpath2 Hsig2 mm1 fs1 mm2'.
  unfold mm2', mm1, fs1. clear mm1 fs1 mm2'.
  rewrite (train_after_load mm fs Hload).
  set (mm0 := (load_client_state mm fs).1).
  destruct (load_client_state_keeps mm fs) as (_ & _ & _ & Hp0 & _ & _ & Hsig0).
  fold mm0 in Hp0, Hsig0.
  destruct (train_loaded_keeps mm0 fs) as [Hp1 Hsig1].
  set (mm1 := (train_loaded mm0 fs).1.1) in *.
  set (fs1 := (train_loaded mm0 fs).1.2).
  assert (fs1 !! path = Some (state_dict_of "" (head (model mm1)))) as Hsaved.
  { apply train_loaded_saves. congruence. }
  assert (signature (head (model mm1)) = signature (head (model mm))) as Hsig
    by congruence.
  assert (NoDup (dict_keys (state_dict_of "" (head (model mm1))))) as Hnd1.
  { by rewrite (signature_keys "" _ _ Hsig). }
  destruct (saved_head_compatible (head (model mm1)) (head (model mm2)) Hnd1)
    as [Hkeys Hshapes]; [congruence|].
  destruct (load_exact (head (model mm2)) _ true Hkeys Hshapes)
    as (Hok & Hget & Hsig').
  pose proof (load_client_state_present mm2 fs1 path _ Hpath2 Hsaved) as Hpres.
  assert ((load_client_state mm2 fs1).2 = Ok tt) as Hload2.
  { rewrite Hpres. cbn [snd]. by rewrite Hok. }
  assert (state_dict_of "" (head (model (load_client_state mm2 fs1).1))
          = state_dict_of "" (head (model mm1))) as Hhead.
  { rewrite Hpres. cbn [fst with_model model _model head _head].
    apply dict_ext; [|by rewrite (signature_keys "" _ _ Hsig'),
                          (signature_keys "" _ _ Hsig2),
                          <- (signature_keys "" _ _ Hsig)| exact Hget].
    apply signature_keys. congruence. }
  split_and!; [done|congruence|done|done|done|by apply train_after_load|exact Hhead].
Qed.

(** C10. When the training loader yields no minibatch, or both epoch
    counts are zero, [train] returns no metrics: at its [return] the
    variable [loss] is still the float it was initialised with, which has
    no [item], and [correct] and [total] are both zero, so the accuracy
    would divide zero by zero; the call raises. *)
Theorem train_without_batches_fails mm fs :
  let nl := resolve DEFAULT_LOCAL_TRAIN_EPOCHS (num_local_epochs (config mm)) in
  let nr := resolve DEFAULT_REPRESENTATION_EPOCHS (num_rep_epochs (config mm)) in
  batches (trainloader mm) = [] \/ (nl = 0 /\ nr = 0) ->
  let st := train_loop (load_client_state mm fs).1 nl nr in
  ts_loss st = FloatObj 0 /\
  item (ts_loss st) = Raise AttributeError /\
  ts_correct st = 0 /\ ts_total st = 0 /\
  py_int_truediv (ts_correct st) (ts_total st) = Raise ZeroDivisionError /\
  (exists e, (train mm fs).2 = Raise e) /\
  ((load_client_state mm fs).2 = Ok tt -> (train mm fs).2 = Raise AttributeError).
Proof.
  intros nl nr Hidle st.
  destruct (load_client_state_keeps mm fs) as (Hcfg & Htl & _).
  destruct (train_loop_idle (load_client_state mm fs).1 nl nr) as (Hl & Hc & Ht).
  { by rewrite Htl. }
  fold st in Hl, Hc, Ht.
  assert ((load_client_state mm fs).2 = Ok tt -> (train mm fs).2 = Raise AttributeError)
    as Hraise.
  { intros Hload. rewrite (train_after_load mm fs Hload).
    unfold train_loaded. cbn zeta. cbn [snd]. rewrite Hcfg. fold nl nr st.
    unfold train_metrics. by rewrite Hl. }
  rewrite Hl, Hc, Ht. split_and!; try done.
  destruct (load_result_cases mm fs) as [Hload|[e He]].
  - exists AttributeError. by apply Hraise.
  - exists e. by rewrite (train_load_raises mm fs e He).
Qed.
End ManagerClaims.

Section TestClaims.
Context `{NW : Network} `{CS : Constants}.
Implicit Types (mm : ModelManager) (fs : gmap string StateDict).

Lemma finetune_none mm nf : nf <= 0 -> finetune mm nf = model mm.
Proof. intros Hnf. unfold finetune. by rewrite decide_False by lia. Qed.

Lemma test_loaded_result mm fs :
  (test_loaded mm fs).2 = test_metrics (testloader mm) (test_eval_state mm).
Proof. reflexivity. Qed.


Lemma test_metrics_ok loader st :
  is_ok (test_metrics loader st) = true <->
  dataset_len loader <> 0 /\ es_total st <> 0.
Proof.
  unfold test_metrics, py_float_truediv, py_int_truediv.
  destruct (decide (dataset_len loader = 0)), (decide (es_total st = 0)); cbn;
    split; try done; intros [? ?]; done.
Qed.


End TestClaims.

(** ** The theorems at work on the small network *)

Section Runs.
Import Toy.

Lemma net_keys_NoDup : NoDup (dict_keys (state_dict net)).
Proof. apply (bool_decide_unpack _). vm_compute. exact I. Qed.

Lemma net_head_keys_NoDup : NoDup (dict_keys (state_dict_of "" (head net))).
Proof. apply (bool_decide_unpack _). vm_compute. exact I. Qed.

(** One round of [client]: the head moves in the head phase, the body in
    the representation phase. *)
Example client_round :
  state_dict (ts_model (phase_A client 1)) =
    [("_body.fc1.weight", weight 10); ("_head.fc2.weight", weight 16);
     ("_head.fc2.bias", bias 26)] /\
  state_dict (ts_model (train_loop client 1 1)) =
    [("_body.fc1.weight", weight 6); ("_head.fc2.weight", weight 16);
     ("_head.fc2.bias", bias 26)].
Proof. split; vm_compute; reflexivity. Qed.


Lemma rep_phase_keeps_head_witness :
  0 <= 1 /\
  state_dict_of "" (head (model (train_loaded client no_files).1.1))
    = state_dict_of "" (head (ts_model (phase_A client 1))).
Proof.
  split; [lia|].
  destruct (rep_phase_keeps_head client no_files) as (_ & _ & _ & _ & H & _).
  apply H. cbn. lia.
Defined.

Lemma second_train_loads_saved_head_witness :
  client_save_path client = Some "state.pth" /\
  (load_client_state client no_files).2 = Ok tt /\
  (train client no_files).1.2 !! "state.pth"
    = Some (state_dict_of "" (head (model (train client no_files).1.1))) /\
  state_dict_of "" (head (model (load_client_state client (train client no_files).1.2).1))
    = state_dict_of "" (head (model (train client no_files).1.1)).
Proof.
  destruct (second_train_loads_saved_head client no_files "state.pth" client)
    as (H1 & _ & _ & _ & H2 & _).
  - reflexivity.
  - exact net_head_keys_NoDup.
  - reflexivity.
  - reflexivity.
  - reflexivity.
  - split_and!; [reflexivity | reflexivity | exact H1 | exact H2].
Defined.

Lemma old_head_fits : same_keys old_head (head net) /\ shapes_agree "" old_head (head net).
Proof.
  split.
  - intros k. reflexivity.
  - intros kp t Hin Hget.
    repeat (apply elem_of_cons in Hin as [->|Hin]); [..|by apply elem_of_nil in Hin];
      vm_compute in Hget; by injection Hget as <-.
Qed.

Lemma setters_are_strict_witness :
  (set_head net old_head).2 = Ok ([], []) /\
  dict_get (state_dict_of "" (head (set_head net old_head).1)) "fc2.bias"
    = Some (bias 2) /\
  (set_body net old_head).2 = Raise RuntimeError.
Proof.
  destruct (setters_are_strict net old_head) as [[Hraise _] [_ Hok]].
  destruct Hok as (Hres & Hget & _); [apply old_head_fits..|].
  split_and!; [exact Hres | by rewrite Hget |].
  apply Hraise. left. exists "fc1.weight". split; [|reflexivity].
  vm_compute. left.
Defined.

Lemma set_parameters_merges_witness :
  NoDup (dict_keys new_bias) /\
  dict_get (state_dict (set_parameters net new_bias).1) "_head.fc2.bias"
    = Some (bias 7) /\
  dict_get (state_dict (set_parameters net new_bias).1) "_head.fc2.weight"
    = Some (weight 20) /\
  is_ok (set_parameters net new_bias).2 = true.
Proof.
  assert (NoDup (dict_keys new_bias)) as Hnd
    by (apply (bool_decide_unpack _); vm_compute; exact I).
  destruct (set_parameters_merges net new_bias) as ((u & Hok & _) & _ & Hget).
  - exact net_keys_NoDup.
  - exact Hnd.
  - intros k t t' Ht Ht'. unfold new_bias in Ht. cbn in Ht, Ht'.
    repeat case_decide; simplify_eq; reflexivity.
  - split_and!; [exact Hnd | | |by rewrite Hok].
    + rewrite Hget; [reflexivity|]. vm_compute. do 2 right. left.
    + rewrite Hget; [reflexivity|]. vm_compute. right. left.
Defined.

(** C8 fails as stated: a supplied tensor whose shape differs from the
    parameter it names is rejected, and the parameter keeps its value. *)
Lemma set_parameters_shape_counterexample :
  "_head.fc2.bias" ∈ dict_keys (state_dict net) /\
  dict_get bad_bias "_head.fc2.bias" = Some (long_bias 7) /\
  (set_parameters net bad_bias).2 = Raise RuntimeError /\
  dict_get (state_dict (set_parameters net bad_bias).1) "_head.fc2.bias"
    = Some (bias 30) /\
  bias 30 <> long_bias 7.
Proof.
  split_and!; [|reflexivity..|discriminate].
  vm_compute. do 2 right. left.
Qed.

Lemma get_set_parameters_roundtrip_witness :
  signature (body other_net) = signature (body net) /\
  signature (head other_net) = signature (head net) /\
  length (get_parameters net) = 3%nat /\
  state_dict
    (set_parameters other_net
       (zip (dict_keys (state_dict net)) (from_numpy <$> get_parameters net))).1
    = state_dict net.
Proof.
  destruct (get_set_parameters_roundtrip net other_net)
    as (_ & Hlen & _ & _ & Hstate);
    [exact net_keys_NoDup | reflexivity | reflexivity |].
  split_and!; [reflexivity | reflexivity | exact Hlen | exact Hstate].
Defined.

Lemma client_state_loaded_if_present_witness :
  one_file !! "state.pth" = Some old_head /\
  dict_get (state_dict_of "" (head (model (load_client_state client one_file).1)))
    "fc2.weight" = Some (weight 1) /\
  load_client_state client no_files = (client, Ok tt).
Proof.
  assert (one_file !! "state.pth" = Some old_head) as Hfile
    by apply lookup_singleton_eq.
  destruct (client_state_loaded_if_present client one_file) as [Hpresent _].
  destruct (client_state_loaded_if_present client no_files) as [_ Habsent].
  destruct (Hpresent "state.pth" old_head) as (_ & Hget & _);
    [reflexivity | exact Hfile | apply old_head_fits..|].
  destruct Habsent as (Hload & _).
  { intros (path & Hpath & [x Hx]). unfold no_files in Hx.
    by rewrite lookup_empty in Hx. }
  split_and!; [exact Hfile | by rewrite Hget | exact Hload].
Defined.

Lemma train_without_batches_fails_witness :
  batches (trainloader client_without_batches) = [] /\
  (train client_without_batches no_files).2 = Raise AttributeError.
Proof.
  split; [reflexivity|].
  destruct (train_without_batches_fails client_without_batches no_files)
    as (_ & _ & _ & _ & _ & _ & H); [by left|].
  apply H. reflexivity.
Defined.




End Runs.

(** * Further properties of [ModelSplit] *)

Section SplitExtras.
Context `{TD : TensorData}.
Implicit Types (m : Module) (sd : StateDict) (ms : ModelSplit).

Lemma load_params_grad_state prefix sd m :
  grad_state (load_params prefix sd m).1 = grad_state m.
Proof.
  induction m as [|kp m IH]; [done|].
  rewrite load_params_cons. unfold grad_state in *. cbn [map fst].
  destruct (load_param_signature prefix sd kp) as (-> & _ & -> & ->). by rewrite IH.
Qed.

(** X1. Setting parameters, through [set_parameters] or through the [body]
    and [head] setters, copies values only: for any mapping, accepted or
    not, every parameter keeps its name, its [requires_grad] switch and the
    gradient it has stored. *)
Theorem setting_keeps_grad_state ms sd :
  grad_state (body (set_parameters ms sd).1) = grad_state (body ms) /\
  grad_state (head (set_parameters ms sd).1) = grad_state (head ms) /\
  grad_state (body (set_body ms sd).1) = grad_state (body ms) /\
  head (set_body ms sd).1 = head ms /\
  grad_state (head (set_head ms sd).1) = grad_state (head ms) /\
  body (set_head ms sd).1 = body ms.
Proof.
  split_and!.
  - unfold set_parameters. rewrite split_load_unfold. apply load_params_grad_state.
  - unfold set_parameters. rewrite split_load_unfold. apply load_params_grad_state.
  - unfold set_body. rewrite load_state_dict_unfold. apply load_params_grad_state.
  - unfold set_body. by rewrite load_state_dict_unfold.
  - unfold set_head. rewrite load_state_dict_unfold. apply load_params_grad_state.
  - unfold set_head. by rewrite load_state_dict_unfold.
Qed.

Lemma set_requires_grad_twice flag flag' m :
  set_requires_grad flag (set_requires_grad flag' m) = set_requires_grad flag m.
Proof.
  unfold set_requires_grad. induction m as [|kp m IH]; [done|].
  cbn [map fst snd data grad]. by rewrite IH.
Qed.

Lemma set_requires_grad_state prefix flag m :
  state_dict_of prefix (set_requires_grad flag m) = state_dict_of prefix m.
Proof.
  unfold state_dict_of, set_requires_grad. induction m as [|kp m IH]; [done|].
  cbn [map fst snd data]. by rewrite IH.
Qed.

(** X2. The four gradient switches change nothing the forward pass reads:
    the state dictionary, the arrays of [get_parameters] and the mode stay
    the same; each switch leaves the other part of the model as it is; the
    last switch of a part wins; and a switch of the head commutes with a
    switch of the body. *)
Theorem switches_keep_state ms :
  (training (enable_head ms) = training ms /\
   training (disable_head ms) = training ms /\
   training (enable_body ms) = training ms /\
   training (disable_body ms) = training ms) /\
  (state_dict (enable_head ms) = state_dict ms /\
   state_dict (disable_head ms) = state_dict ms /\
   state_dict (enable_body ms) = state_dict ms /\
   state_dict (disable_body ms) = state_dict ms) /\
  (get_parameters (enable_head ms) = get_parameters ms /\
   get_parameters (disable_head ms) = get_parameters ms /\
   get_parameters (enable_body ms) = get_parameters ms /\
   get_parameters (disable_body ms) = get_parameters ms) /\
  (body (enable_head ms) = body ms /\ body (disable_head ms) = body ms /\
   head (enable_body ms) = head ms /\ head (disable_body ms) = head ms) /\
  (grads_set true (head (enable_head ms)) /\ grads_set false (head (disable_head ms)) /\
   grads_set true (body (enable_body ms)) /\ grads_set false (body (disable_body ms))) /\
  (disable_head (enable_head ms) = disable_head ms /\
   enable_head (disable_head ms) = enable_head ms /\
   disable_body (enable_body ms) = disable_body ms /\
   enable_body (disable_body ms) = enable_body ms) /\
  (enable_head (disable_body ms) = disable_body (enable_head ms) /\
   disable_head (enable_body ms) = enable_body (disable_head ms)).
Proof.
  split_and!; try reflexivity;
    try (unfold state_dict, enable_head, disable_head, enable_body, disable_body,
           body, head; cbn [_body _head]; by rewrite set_requires_grad_state);
    try (unfold get_parameters, enable_head, disable_head, enable_body, disable_body,
           body, head; cbn [_body _head]; by rewrite set_requires_grad_state);
    try (unfold enable_head, disable_head, enable_body, disable_body, body, head;
         cbn [_body _head]; apply set_requires_grad_frame);
    unfold enable_head, disable_head, enable_body, disable_body, body, head;
    cbn [_body _head training]; by rewrite set_requires_grad_twice.
Qed.
End SplitExtras.

Section ParameterExtras.
Context `{TD : TensorData}.
Implicit Types (m : Module) (sd : StateDict) (ms : ModelSplit).

(** X4. A mapping without any key of the head leaves the head exactly as it
    is (values, switches and gradients), and a mapping without any key of
    the body leaves the body as it is, whether [set_parameters] accepts the
    mapping or raises. *)
Theorem set_parameters_keeps_other_part ms sd :
  NoDup (dict_keys (state_dict ms)) ->
  NoDup (dict_keys sd) ->
  ((forall kp, kp ∈ head ms -> dict_get sd (head_prefix +:+ kp.1) = None) ->
   head (set_parameters ms sd).1 = head ms) /\
  ((forall kp, kp ∈ body ms -> dict_get sd (body_prefix +:+ kp.1) = None) ->
   body (set_parameters ms sd).1 = body ms).
Proof.
  intros Hnd Hsd. unfold set_parameters. rewrite split_load_unfold.
  cbn [fst head body _head _body]. split; intros Hnone; apply load_params_id.
  - intros kp Hin. rewrite ordered_state_dict_get, (Hnone kp Hin) by done.
    apply (dict_get_elem _ _ _ Hnd (state_dict_elem_head ms kp Hin)).
  - intros kp Hin. rewrite ordered_state_dict_get, (Hnone kp Hin) by done.
    apply (dict_get_elem _ _ _ Hnd (state_dict_elem_body ms kp Hin)).
Qed.

Lemma load_params_elem prefix sd m kp :
  kp ∈ m -> (load_param prefix sd kp).1 ∈ (load_params prefix sd m).1.
Proof.
  intros Hin. unfold load_params. cbn [fst].
  apply (list_elem_of_fmap_2 fst _ (load_param prefix sd kp)).
  change (map (load_param prefix sd) m) with (load_param prefix sd <$> m).
  by apply list_elem_of_fmap_2.
Qed.

(** A tensor of the right shape found under the key of a parameter is in
    the module after the load, whatever the load reports. *)
Lemma load_state_dict_copies m sd strict kp t :
  NoDup (dict_keys (state_dict_of "" m)) ->
  kp ∈ m -> dict_get sd kp.1 = Some t -> t_shape t = t_shape (data kp.2) ->
  dict_get (state_dict_of "" (load_state_dict m sd strict).1) kp.1 = Some t.
Proof.
  intros Hnd Hin Hget Hsh. rewrite load_state_dict_unfold. cbn [fst].
  change kp.1 with ("" +:+ kp.1) in Hget.
  apply dict_get_elem.
  - by rewrite (signature_keys "" _ m) by apply load_params_signature.
  - pose proof (load_params_elem "" sd m kp Hin) as Hel.
    destruct (load_param_cases "" sd kp)
      as [(t' & Ht' & _ & Heq)|[(t' & Ht' & Hne & _)|(Hnone & _)]];
      [|congruence..].
    rewrite Heq in Hel. cbn [fst] in Hel.
    assert (t' = t) as -> by congruence.
    unfold state_dict_of.
    apply (list_elem_of_fmap_2' _ _ (kp.1, copy_ kp.2 t)); [done|].
    cbn [fst snd]. by rewrite copy_same_shape.
Qed.

(** X5. The strict setters are not atomic: a tensor of the right shape
    supplied under the name of a parameter is copied into the sub-module
    even when the assignment raises, for a missing key, an unknown key or a
    wrong shape elsewhere in the mapping. *)
Theorem setters_copy_before_raising ms sd kp t :
  dict_get sd kp.1 = Some t -> t_shape t = t_shape (data kp.2) ->
  (NoDup (dict_keys (state_dict_of "" (body ms))) -> kp ∈ body ms ->
   dict_get (state_dict_of "" (body (set_body ms sd).1)) kp.1 = Some t) /\
  (NoDup (dict_keys (state_dict_of "" (head ms))) -> kp ∈ head ms ->
   dict_get (state_dict_of "" (head (set_head ms sd).1)) kp.1 = Some t).
Proof.
  intros Hget Hsh. split; intros Hnd Hin.
  - pose proof (load_state_dict_copies (body ms) sd true kp t Hnd Hin Hget Hsh) as H.
    unfold set_body. by destruct (load_state_dict (body ms) sd true).
  - pose proof (load_state_dict_copies (head ms) sd true kp t Hnd Hin Hget Hsh) as H.
    unfold set_head. by destruct (load_state_dict (head ms) sd true).
Qed.
End ParameterExtras.

(** * Further properties of the training loop *)

Section TrainExtras.
Context `{NW : Network} `{CS : Constants}.
Implicit Types (st : TrainState) (loader : DataLoader) (mm : ModelManager)
  (bs : list Batch).

(** A body that requires no gradient comes out of a minibatch step with the
    values it had. *)
Lemma train_batch_frozen_body st b :
  grads_set false (body (ts_model st)) ->
  body (ts_model (train_batch st b)) = clear_grad (body (ts_model st)).
Proof.
  intros Hfrozen. rewrite train_batch_unfold, step_unfold.
  cbn [ts_model fst snd body _body].
  unfold backward, zero_grad, body. cbn [_body training].
  destruct (clear_grad_frame (_body (ts_model st))) as (Hf & _ & Hnone).
  rewrite backward_module_frozen by (by eapply frame_grads_set).
  by rewrite sgd_module_skips.
Qed.

Lemma train_batches_frozen_body bs st :
  grads_set false (body (ts_model st)) ->
  state_dict_of "" (body (ts_model (fold_left train_batch bs st)))
    = state_dict_of "" (body (ts_model st)).
Proof.
  revert st. induction bs as [|b bs IH]; intros st Hfrozen; [done|].
  cbn [fold_left].
  destruct (clear_grad_frame (body (ts_model st))) as (Hf & Hsd & _).
  rewrite IH; rewrite train_batch_frozen_body by done; [done|].
  by eapply frame_grads_set.
Qed.

Lemma head_epoch_body_unchanged loader st :
  state_dict_of "" (body (ts_model (head_epoch loader st)))
    = state_dict_of "" (body (ts_model st)).
Proof.
  unfold head_epoch.
  destruct (set_requires_grad_frame false (body (ts_model st))) as (_ & Hsd & Hset).
  rewrite train_batches_frozen_body; [exact Hsd | exact Hset].
Qed.

Lemma head_epochs_body_unchanged loader nl (l : list Z) st :
  (forall i, i ∈ l -> i < nl) ->
  state_dict_of "" (body (ts_model (fold_left (train_epoch loader nl) l st)))
    = state_dict_of "" (body (ts_model st)).
Proof.
  revert st. induction l as [|i l IH]; intros st Hl; [done|].
  cbn [fold_left]. rewrite IH by (intros j Hj; apply Hl; by right).
  rewrite train_epoch_head by (apply Hl; left).
  apply head_epoch_body_unchanged.
Qed.

(** X6. The head phase does not change the values of the body: after each
    of the first [nl] epochs of [train]'s loop the body holds what the model
    held when [train] was called, and a [train] without representation
    epochs leaves the body as it was.  One head epoch, from any state,
    leaves the body as it was. *)
Theorem head_phase_keeps_body mm nl nr :
  (forall k : nat, (k <= Z.to_nat nl)%nat ->
     state_dict_of "" (body (ts_model (train_loop_upto mm nl nr k)))
       = state_dict_of "" (body (model mm))) /\
  (nr <= 0 ->
   state_dict_of "" (body (ts_model (train_loop mm nl nr)))
     = state_dict_of "" (body (model mm))) /\
  (forall st,
     state_dict_of "" (body (ts_model (head_epoch (trainloader mm) st)))
       = state_dict_of "" (body (ts_model st))).
Proof.
  assert (forall k : nat, (k <= Z.to_nat nl)%nat ->
            state_dict_of "" (body (ts_model (train_loop_upto mm nl nr k)))
              = state_dict_of "" (body (model mm))) as Hupto.
  { intros k Hk. unfold train_loop_upto.
    rewrite head_epochs_body_unchanged; [done|].
    intros i Hi. apply list_elem_of_lookup in Hi as [j Hj].
    apply lookup_take_Some in Hj as [Hj Hlt]. apply range_lookup in Hj. lia. }
  split_and!; [exact Hupto | | apply head_epoch_body_unchanged].
  intros Hnr. rewrite train_loop_upto_all. apply Hupto. lia.
Qed.

(** *** Counting examples *)

Lemma train_batches_total bs st :
  ts_total (fold_left train_batch bs st)
    = ts_total st + foldr Z.add 0 (batch_size <$> bs).
Proof.
  revert st. induction bs as [|b bs IH]; intros st; csimpl; [lia|].
  rewrite IH, train_batch_unfold. cbn [ts_total]. lia.
Qed.

Lemma train_epochs_total loader nl (l : list Z) st :
  ts_total (fold_left (train_epoch loader nl) l st)
    = ts_total st
      + Z.of_nat (length l) * foldr Z.add 0 (batch_size <$> batches loader).
Proof.
  revert st. induction l as [|i l IH]; intros st; [cbn; lia|].
  cbn [fold_left length]. rewrite IH.
  assert (ts_total (train_epoch loader nl st i)
          = ts_total st + foldr Z.add 0 (batch_size <$> batches loader)) as ->.
  { unfold train_epoch. by rewrite train_batches_total. }
  lia.
Qed.

(** A processed minibatch leaves a loss tensor in [loss]. *)
Lemma train_batches_loss bs st :
  bs <> [] -> exists l, ts_loss (fold_left train_batch bs st) = LossTensor l.
Proof.
  intros Hne. destruct (exists_last Hne) as (bs' & b & ->).
  rewrite fold_left_app. cbn [fold_left]. rewrite train_batch_unfold.
  cbn [ts_loss]. eauto.
Qed.

Lemma train_epochs_loss loader nl (l : list Z) st :
  batches loader <> [] -> l <> [] ->
  exists x, ts_loss (fold_left (train_epoch loader nl) l st) = LossTensor x.
Proof.
  intros Hbs Hne. destruct (exists_last Hne) as (l' & i & ->).
  rewrite fold_left_app. cbn [fold_left]. unfold train_epoch at 1.
  by apply train_batches_loss.
Qed.

(** X7. [total] counts every example of every epoch: at the end of
    [train]'s loop it is the number of epochs run, [max(0, nl + nr)], times
    the sum of the sizes of the minibatches of the training loader. *)
Theorem train_total_counts_all_epochs mm nl nr :
  ts_total (train_loop mm nl nr)
    = Z.max 0 (nl + nr) * foldr Z.add 0 (batch_size <$> batches (trainloader mm)).
Proof.
  unfold train_loop. rewrite train_epochs_total, range_length.
  cbn [train_init ts_total]. lia.
Qed.

(** The loss the loop ends with is the loss of the last minibatch of the
    last epoch, on the model as it was just before the step of that
    minibatch. *)
Lemma train_loop_last_loss mm nl nr bs b :
  batches (trainloader mm) = bs ++ [b] -> 0 < nl + nr ->
  ts_loss (train_loop mm nl nr) =
    LossTensor
      (loss_value
         (training (ts_model (fold_left train_batch bs
                                (epoch_start nl
                                   (train_loop_upto mm nl nr (Z.to_nat (nl + nr) - 1))
                                   (nl + nr - 1)))))
         (state_dict (ts_model (fold_left train_batch bs
                                  (epoch_start nl
                                     (train_loop_upto mm nl nr (Z.to_nat (nl + nr) - 1))
                                     (nl + nr - 1)))))
         b).
Proof.
  intros Hbs Hpos. unfold train_loop, train_loop_upto.
  assert (range (nl + nr) = range (nl + nr - 1) ++ [nl + nr - 1]) as Hrange.
  { replace (nl + nr) with ((nl + nr - 1) + 1) at 1 by lia.
    rewrite range_app by lia.
    change (Z.add (nl + nr - 1) <$> range 1) with [nl + nr - 1 + 0].
    by rewrite Z.add_0_r. }
  assert (take (Z.to_nat (nl + nr) - 1) (range (nl + nr)) = range (nl + nr - 1))
    as ->.
  { rewrite Hrange. apply take_app_length'. rewrite range_length. lia. }
  rewrite Hrange, fold_left_app. cbn [fold_left].
  unfold train_epoch at 1. rewrite Hbs, fold_left_app. cbn [fold_left].
  rewrite train_batch_unfold. cbn [ts_loss]. reflexivity.
Qed.

(** X8. For a manager with a learning rate that is not negative and a model
    whose body and head both have parameters, once the loading step has
    passed: [train] returns metrics exactly when the training loader yields
    a minibatch, at least one epoch is run and the examples counted are not
    zero.  The accuracy it returns is then [correct / total] over all the
    epochs, and the loss it returns is the loss of the last minibatch of the
    last epoch, taken on the model as it was before the step of that
    minibatch. *)
Theorem train_returns_metrics_iff mm fs :
  let nl := resolve DEFAULT_LOCAL_TRAIN_EPOCHS (num_local_epochs (config mm)) in
  let nr := resolve DEFAULT_REPRESENTATION_EPOCHS (num_rep_epochs (config mm)) in
  let seen := foldr Z.add 0 (batch_size <$> batches (trainloader mm)) in
  let mm0 := (load_client_state mm fs).1 in
  let st := train_loop mm0 nl nr in
  (0 <= learning_rate mm)%Q ->
  body (model mm) <> [] -> head (model mm) <> [] ->
  (load_client_state mm fs).2 = Ok tt ->
  (is_ok (train mm fs).2 = true <->
   batches (trainloader mm) <> [] /\ 0 < nl + nr /\ seen <> 0) /\
  (forall r, (train mm fs).2 = Ok r ->
     m_accuracy r = int_truediv (ts_correct st) (ts_total st) /\
     ts_total st = (nl + nr) * seen /\
     forall bs b, batches (trainloader mm) = bs ++ [b] ->
       let before :=
         ts_model (fold_left train_batch bs
                     (epoch_start nl
                        (train_loop_upto mm0 nl nr (Z.to_nat (nl + nr) - 1))
                        (nl + nr - 1))) in
       m_loss r = loss_value (training before) (state_dict before) b).
Proof.
  intros nl nr seen mm0 st _ _ _ Hload.
  destruct (load_client_state_keeps mm fs) as (Hcfg & Htl & _).
  fold mm0 in Hcfg, Htl.
  assert ((train mm fs).2 = train_metrics st) as Hres.
  { rewrite (train_after_load mm fs Hload). unfold train_loaded. cbn zeta.
    cbn [snd]. fold mm0. by rewrite Hcfg. }
  pose proof (train_total_counts_all_epochs mm0 nl nr) as Htot.
  rewrite Htl in Htot. fold seen st in Htot.
  rewrite Hres. unfold train_metrics, py_int_truediv.
  destruct (decide (batches (trainloader mm) = [] \/ nl + nr <= 0)) as [Hidle|Hrun].
  - assert (ts_loss st = FloatObj 0) as Hl.
    { destruct Hidle as [Hnone|Hnone].
      - apply (train_loop_idle mm0 nl nr). left. by rewrite Htl.
      - unfold st, train_loop, range. by rewrite Z2Nat.nonpos by done. }
    rewrite Hl. cbn. split; [|done].
    split; [done|]. intros (? & ? & ?). destruct Hidle; [done|lia].
  - assert (batches (trainloader mm) <> [] /\ 0 < nl + nr) as [Hbs Hep].
    { split; [intros ?|]; [apply Hrun; by left|].
      destruct (decide (0 < nl + nr)); [done|]. exfalso. apply Hrun. right. lia. }
    destruct (exists_last Hbs) as (bs & b & Hlast).
    pose proof (train_loop_last_loss mm0 nl nr bs b) as Hl.
    rewrite Htl in Hl. specialize (Hl Hlast Hep). fold st in Hl.
    rewrite Hl. cbn [item].
    destruct (decide (ts_total st = 0)) as [Hz|Hnz]; cbn.
    + split; [|done]. split; [done|]. intros (_ & _ & Hseen). nia.
    + split.
      * split; [|done]. intros _. split_and!; [done..|]. intros ->. nia.
      * intros r [= <-]. cbn [m_accuracy m_loss]. split_and!; [done|lia|].
        intros bs' b' Hlast'. rewrite Hlast in Hlast'.
        apply app_inj_tail in Hlast' as [-> ->]. done.
Qed.

(** X9. The epoch counts are not checked.  For any two integers the loop
    runs [range(nl + nr)]: the first [nl] of these epochs, as far as there
    are any, are head epochs and the others representation epochs.  So a sum
    that is not positive runs no epoch at all, a [nl] that is not positive
    gives representation epochs only, and a [nr] that is not positive gives
    head epochs only, [nl + nr] of them. *)
Theorem train_loop_for_any_counts mm nl nr :
  train_loop mm nl nr =
    Nat.iter (Z.to_nat (nl + nr) - Z.to_nat nl) (rep_epoch (trainloader mm))
      (Nat.iter (Z.to_nat nl `min` Z.to_nat (nl + nr)) (head_epoch (trainloader mm))
         (train_init mm)) /\
  (nl + nr <= 0 -> train_loop mm nl nr = train_init mm) /\
  (nl <= 0 ->
   train_loop mm nl nr
     = Nat.iter (Z.to_nat (nl + nr)) (rep_epoch (trainloader mm)) (train_init mm)) /\
  (nr <= 0 ->
   train_loop mm nl nr
     = Nat.iter (Z.to_nat (nl + nr)) (head_epoch (trainloader mm)) (train_init mm)).
Proof.
  pose proof (train_loop_any_counts mm nl nr) as Hany.
  split_and!; [exact Hany|..].
  - intros Hle. unfold train_loop, range. by rewrite Z2Nat.nonpos by done.
  - intros Hle. rewrite Hany, (Z2Nat.nonpos nl) by done.
    by rewrite Nat.sub_0_r.
  - intros Hle. rewrite Hany.
    replace (Z.to_nat (nl + nr) - Z.to_nat nl)%nat with 0%nat by lia.
    by rewrite Nat.min_r by lia.
Qed.
End TrainExtras.

(** * Further properties of [train] and [test] *)

Section ManagerExtras.
Context `{NW : Network} `{CS : Constants}.
Implicit Types (ms : ModelSplit) (opt : SGD) (mm : ModelManager)
  (fs : gmap string StateDict) (bs : list Batch).

(** *** One step of SGD on a minibatch, as fine-tuning runs it *)

Lemma sgd_step_frames opt ms b :
  frame (body (step opt (backward (zero_grad ms) b)).1) = frame (body ms) /\
  frame (head (step opt (backward (zero_grad ms) b)).1) = frame (head ms).
Proof.
  rewrite step_unfold. cbn [fst body head _body _head].
  set (b1 := _body (backward (zero_grad ms) b)).
  set (h1 := _head (backward (zero_grad ms) b)).
  destruct (sgd_module_frame opt body_prefix b1 (momentum_buffer opt)) as [Hb _].
  destruct (sgd_module_frame opt head_prefix h1
              (sgd_module opt body_prefix b1 (momentum_buffer opt)).2) as [Hh _].
  unfold body, head. fold b1 h1. rewrite Hb, Hh.
  unfold b1, h1, backward, zero_grad, body, head. cbn [_body _head].
  rewrite !(proj1 (backward_module_frame _ _ _ _ _)).
  split; apply clear_grad_frame.
Qed.

Lemma sgd_step_frozen opt ms b :
  (grads_set false (head ms) ->
   head (step opt (backward (zero_grad ms) b)).1 = clear_grad (head ms)) /\
  (grads_set false (body ms) ->
   body (step opt (backward (zero_grad ms) b)).1 = clear_grad (body ms)).
Proof.
  rewrite step_unfold. cbn [fst body head _body _head].
  unfold backward, zero_grad, body, head. cbn [_body _head training].
  split; intros Hfrozen.
  - destruct (clear_grad_frame (_head ms)) as (Hf & _ & Hnone).
    rewrite (backward_module_frozen head_prefix) by (by eapply frame_grads_set).
    by rewrite sgd_module_skips.
  - destruct (clear_grad_frame (_body ms)) as (Hf & _ & Hnone).
    rewrite (backward_module_frozen body_prefix) by (by eapply frame_grads_set).
    by rewrite sgd_module_skips.
Qed.

(** What fine-tuning keeps of a part of the model: names, shapes and
    switches always, and the values when the part requires no gradient. *)
Lemma finetune_batches_keep bs (st : ModelSplit * SGD) :
  frame (body (fold_left finetune_batch bs st).1) = frame (body st.1) /\
  frame (head (fold_left finetune_batch bs st).1) = frame (head st.1) /\
  (grads_set false (head st.1) ->
   state_dict_of "" (head (fold_left finetune_batch bs st).1)
     = state_dict_of "" (head st.1)) /\
  (grads_set false (body st.1) ->
   state_dict_of "" (body (fold_left finetune_batch bs st).1)
     = state_dict_of "" (body st.1)).
Proof.
  revert st. induction bs as [|b bs IH]; intros st; [done|].
  cbn [fold_left]. destruct (IH (finetune_batch st b)) as (IHb & IHh & IHfh & IHfb).
  unfold finetune_batch in *. cbn zeta in *.
  destruct (sgd_step_frames st.2 st.1 b) as [Hb Hh].
  destruct (sgd_step_frozen st.2 st.1 b) as [Hfh Hfb].
  split_and!.
  - by rewrite IHb.
  - by rewrite IHh.
  - intros Hfrozen. rewrite IHfh by (eapply frame_grads_set; [symmetry|]; done).
    rewrite Hfh by done. apply clear_grad_frame.
  - intros Hfrozen. rewrite IHfb by (eapply frame_grads_set; [symmetry|]; done).
    rewrite Hfb by done. apply clear_grad_frame.
Qed.

Lemma finetune_epochs_keep bs (l : list Z) (st : ModelSplit * SGD) :
  let st' := fold_left (fun st (_ : Z) => fold_left finetune_batch bs st) l st in
  frame (body st'.1) = frame (body st.1) /\
  frame (head st'.1) = frame (head st.1) /\
  (grads_set false (head st.1) ->
   state_dict_of "" (head st'.1) = state_dict_of "" (head st.1)) /\
  (grads_set false (body st.1) ->
   state_dict_of "" (body st'.1) = state_dict_of "" (body st.1)).
Proof.
  cbn zeta. revert st. induction l as [|i l IH]; intros st; [done|].
  cbn [fold_left].
  destruct (IH (fold_left finetune_batch bs st)) as (IHb & IHh & IHfh & IHfb).
  destruct (finetune_batches_keep bs st) as (Hb & Hh & Hfh & Hfb).
  split_and!.
  - by rewrite IHb.
  - by rewrite IHh.
  - intros Hfrozen. rewrite IHfh by (eapply frame_grads_set; [symmetry|]; done).
    by apply Hfh.
  - intros Hfrozen. rewrite IHfb by (eapply frame_grads_set; [symmetry|]; done).
    by apply Hfb.
Qed.

Lemma finetune_keeps mm nf :
  frame (body (finetune mm nf)) = frame (body (model mm)) /\
  frame (head (finetune mm nf)) = frame (head (model mm)) /\
  (grads_set false (head (model mm)) ->
   state_dict_of "" (head (finetune mm nf)) = state_dict_of "" (head (model mm))) /\
  (grads_set false (body (model mm)) ->
   state_dict_of "" (body (finetune mm nf)) = state_dict_of "" (body (model mm))).
Proof.
  unfold finetune. case_decide; [|done].
  apply (finetune_epochs_keep (batches (trainloader mm)) (range nf)
           (set_mode true (model mm), SGD_new (learning_rate mm) 0)).
Qed.

(** X10. Fine-tuning in [test] obeys the gradient switches it finds: for
    any number of fine-tuning epochs, a head that requires no gradient
    comes out of [test] with the values the loading step gave it, and so
    does a body that requires no gradient. *)
Theorem finetune_obeys_switches mm fs :
  (grads_set false (head (model mm)) ->
   state_dict_of "" (head (model (test_loaded mm fs).1.1))
     = state_dict_of "" (head (model mm))) /\
  (grads_set false (body (model mm)) ->
   state_dict_of "" (body (model (test_loaded mm fs).1.1))
     = state_dict_of "" (body (model mm))).
Proof.
  unfold test_loaded. cbn zeta. cbn [fst with_model model _model].
  unfold set_mode, head, body. cbn [_head _body].
  destruct (finetune_keeps mm
              (resolve DEFAULT_FINETUNE_EPOCHS (num_finetune_epochs (config mm))))
    as (_ & _ & Hh & Hb).
  split; [exact Hh | exact Hb].
Qed.
End ManagerExtras.

Section RoundExtras.
Context `{NW : Network} `{CS : Constants}.
Implicit Types (ms : ModelSplit) (mm : ModelManager)
  (fs : gmap string StateDict) (bs : list Batch).

Lemma load_client_state_id mm fs :
  client_id (load_client_state mm fs).1 = client_id mm.
Proof.
  destruct (has_state_file_dec mm fs) as [(path & Hpath & [saved Hfile])|Hno].
  - by rewrite (load_client_state_present mm fs path saved).
  - by rewrite load_client_state_absent.
Qed.

Lemma train_loaded_signatures mm fs :
  signature (body (model (train_loaded mm fs).1.1)) = signature (body (model mm)) /\
  signature (head (model (train_loaded mm fs).1.1)) = signature (head (model mm)).
Proof.
  rewrite train_loaded_model. unfold train_loop.
  destruct (train_epochs_keep (trainloader mm)
              (resolve DEFAULT_LOCAL_TRAIN_EPOCHS (num_local_epochs (config mm)))
              (range (resolve DEFAULT_LOCAL_TRAIN_EPOCHS (num_local_epochs (config mm))
                      + resolve DEFAULT_REPRESENTATION_EPOCHS (num_rep_epochs (config mm))))
              (train_init mm)) as (Hb & Hh & _).
  split; [exact Hb | exact Hh].
Qed.

Lemma test_loaded_signatures mm fs :
  signature (body (model (test_loaded mm fs).1.1)) = signature (body (model mm)) /\
  signature (head (model (test_loaded mm fs).1.1)) = signature (head (model mm)).
Proof.
  unfold test_loaded. cbn zeta. cbn [fst with_model model _model].
  unfold set_mode, head, body. cbn [_head _body].
  destruct (finetune_keeps mm
              (resolve DEFAULT_FINETUNE_EPOCHS (num_finetune_epochs (config mm))))
    as (Hb & Hh & _).
  split; apply frame_signature; [exact Hb | exact Hh].
Qed.

(** What a call keeps of the manager. *)
Lemma manager_kept_after_load mm fs mm' :
  config mm' = config (load_client_state mm fs).1 ->
  client_id mm' = client_id (load_client_state mm fs).1 ->
  trainloader mm' = trainloader (load_client_state mm fs).1 ->
  testloader mm' = testloader (load_client_state mm fs).1 ->
  client_save_path mm' = client_save_path (load_client_state mm fs).1 ->
  learning_rate mm' = learning_rate (load_client_state mm fs).1 ->
  signature (body (model mm')) = signature (body (model (load_client_state mm fs).1)) ->
  signature (head (model mm')) = signature (head (model (load_client_state mm fs).1)) ->
  config mm' = config mm /\ client_id mm' = client_id mm /\
  trainloader mm' = trainloader mm /\ testloader mm' = testloader mm /\
  client_save_path mm' = client_save_path mm /\
  learning_rate mm' = learning_rate mm /\
  signature (body (model mm')) = signature (body (model mm)) /\
  signature (head (model mm')) = signature (head (model mm)).
Proof.
  destruct (load_client_state_keeps mm fs) as (H1 & H2 & H3 & H4 & H5 & H6 & H7).
  pose proof (load_client_state_id mm fs) as H8.
  intros -> -> -> -> -> -> -> ->. by rewrite H6.
Qed.

(** X11. [train] and [test] change nothing of the manager but the values,
    switches and gradients of its model: configuration, client id, loaders,
    state path and learning rate stay, the body and the head keep their
    names and shapes, and the three dataset sizes read the same before and
    after, whatever the call returns or raises. *)
Theorem train_and_test_keep_the_manager mm fs :
  (config (train mm fs).1.1 = config mm /\
   client_id (train mm fs).1.1 = client_id mm /\
   trainloader (train mm fs).1.1 = trainloader mm /\
   testloader (train mm fs).1.1 = testloader mm /\
   client_save_path (train mm fs).1.1 = client_save_path mm /\
   learning_rate (train mm fs).1.1 = learning_rate mm /\
   signature (body (model (train mm fs).1.1)) = signature (body (model mm)) /\
   signature (head (model (train mm fs).1.1)) = signature (head (model mm))) /\
  (config (test mm fs).1.1 = config mm /\
   client_id (test mm fs).1.1 = client_id mm /\
   trainloader (test mm fs).1.1 = trainloader mm /\
   testloader (test mm fs).1.1 = testloader mm /\
   client_save_path (test mm fs).1.1 = client_save_path mm /\
   learning_rate (test mm fs).1.1 = learning_rate mm /\
   signature (body (model (test mm fs).1.1)) = signature (body (model mm)) /\
   signature (head (model (test mm fs).1.1)) = signature (head (model mm))) /\
  (train_dataset_size (train mm fs).1.1 = train_dataset_size mm /\
   test_dataset_size (train mm fs).1.1 = test_dataset_size mm /\
   total_dataset_size (train mm fs).1.1 = total_dataset_size mm /\
   train_dataset_size (test mm fs).1.1 = train_dataset_size mm /\
   test_dataset_size (test mm fs).1.1 = test_dataset_size mm /\
   total_dataset_size (test mm fs).1.1 = total_dataset_size mm).
Proof.
  assert (config (train mm fs).1.1 = config mm /\
          client_id (train mm fs).1.1 = client_id mm /\
          trainloader (train mm fs).1.1 = trainloader mm /\
          testloader (train mm fs).1.1 = testloader mm /\
          client_save_path (train mm fs).1.1 = client_save_path mm /\
          learning_rate (train mm fs).1.1 = learning_rate mm /\
          signature (body (model (train mm fs).1.1)) = signature (body (model mm)) /\
          signature (head (model (train mm fs).1.1)) = signature (head (model mm)))
    as Htrain.
  { apply (manager_kept_after_load mm fs);
      destruct (load_result_cases mm fs) as [Hload|[e He]];
      rewrite ?(train_after_load mm fs Hload), ?(train_load_raises mm fs e He);
      try done; apply train_loaded_signatures. }
  assert (config (test mm fs).1.1 = config mm /\
          client_id (test mm fs).1.1 = client_id mm /\
          trainloader (test mm fs).1.1 = trainloader mm /\
          testloader (test mm fs).1.1 = testloader mm /\
          client_save_path (test mm fs).1.1 = client_save_path mm /\
          learning_rate (test mm fs).1.1 = learning_rate mm /\
          signature (body (model (test mm fs).1.1)) = signature (body (model mm)) /\
          signature (head (model (test mm fs).1.1)) = signature (head (model mm)))
    as Htest.
  { apply (manager_kept_after_load mm fs);
      destruct (load_result_cases mm fs) as [Hload|[e He]];
      rewrite ?(test_after_load mm fs Hload), ?(test_load_raises mm fs e He);
      try done; apply test_loaded_signatures. }
  split; [exact Htrain | split; [exact Htest|]].
  unfold train_dataset_size, test_dataset_size, total_dataset_size.
  destruct Htrain as (_ & _ & -> & -> & _). destruct Htest as (_ & _ & -> & -> & _).
  done.
Qed.

(** X12. The only file [train] writes is the state file of the client: every
    other path holds after the call what it held before, and without a state
    path nothing is written.  [test] writes no file at all. *)
Theorem only_the_state_file_is_written mm fs :
  (forall p, client_save_path mm <> Some p -> (train mm fs).1.2 !! p = fs !! p) /\
  (client_save_path mm = None -> (train mm fs).1.2 = fs) /\
  (test mm fs).1.2 = fs.
Proof.
  destruct (load_client_state_keeps mm fs) as (_ & _ & _ & Hpath & _).
  assert (forall mm0, client_save_path mm0 = client_save_path mm ->
            (forall p, client_save_path mm <> Some p ->
                       (train_loaded mm0 fs).1.2 !! p = fs !! p) /\
            (client_save_path mm = None -> (train_loaded mm0 fs).1.2 = fs)) as Hsave.
  { intros mm0 Hp0. unfold train_loaded. cbn zeta. cbn [fst snd].
    unfold save_client_state. cbn [with_model client_save_path]. rewrite Hp0.
    destruct (client_save_path mm) as [path|]; [|done].
    split; [|done]. intros p Hne. apply lookup_insert_ne. congruence. }
  destruct (load_result_cases mm fs) as [Hload|[e He]].
  - rewrite (train_after_load mm fs Hload), (test_after_load mm fs Hload).
    destruct (Hsave _ Hpath) as [H1 H2]. by split_and!.
  - rewrite (train_load_raises mm fs e He), (test_load_raises mm fs e He). done.
Qed.
End RoundExtras.

Section SequenceExtras.
Context `{NW : Network} `{CS : Constants}.
Implicit Types (ms : ModelSplit) (mm : ModelManager)
  (fs : gmap string StateDict) (bs : list Batch).

(** The last epoch of the loop, when there is one. *)
Lemma train_loop_last_epoch mm nl nr :
  1 <= nl + nr ->
  (1 <= nr -> exists st, train_loop mm nl nr = rep_epoch (trainloader mm) st) /\
  (nr <= 0 -> exists st, train_loop mm nl nr = head_epoch (trainloader mm) st).
Proof.
  intros Hsum. rewrite train_loop_any_counts. split; intros Hnr.
  - destruct (Z.to_nat (nl + nr) - Z.to_nat nl)%nat as [|a] eqn:Ea; [lia|].
    cbn [Nat.iter nat_rect]. eauto.
  - replace (Z.to_nat (nl + nr) - Z.to_nat nl)%nat with 0%nat by lia.
    destruct (Nat.min (Z.to_nat nl) (Z.to_nat (nl + nr))) as [|b] eqn:Eb; [lia|].
    cbn [Nat.iter nat_rect]. eauto.
Qed.


Lemma manager_eta mm :
  with_model mm {| _body := _body (model mm); _head := head (model mm);
                   training := training (model mm) |} = mm.
Proof. destruct mm as [c i tr te p l [b h t]]. reflexivity. Qed.

(** Loading the state the head already has changes nothing. *)
Lemma load_client_state_same mm fs path :
  client_save_path mm = Some path ->
  fs !! path = Some (state_dict_of "" (head (model mm))) ->
  NoDup (dict_keys (state_dict_of "" (head (model mm)))) ->
  load_client_state mm fs = (mm, Ok tt).
Proof.
  intros Hpath Hfile Hnd.
  rewrite (load_client_state_present mm fs path _ Hpath Hfile).
  destruct (saved_head_compatible (head (model mm)) (head (model mm)) Hnd eq_refl)
    as [Hkeys Hshapes].
  destruct (load_exact (head (model mm)) _ true Hkeys Hshapes) as (-> & _ & _).
  rewrite load_state_dict_unfold. cbn [fst].
  rewrite load_params_id; [by rewrite manager_eta|].
  intros kp Hin. apply dict_get_elem; [done|].
  unfold state_dict_of. apply list_elem_of_fmap. by exists kp.
Qed.

Lemma load_after_train mm fs :
  NoDup (dict_keys (state_dict_of "" (head (model mm)))) ->
  (load_client_state mm fs).2 = Ok tt ->
  load_client_state (train mm fs).1.1 (train mm fs).1.2
    = ((train mm fs).1.1, Ok tt).
Proof.
  intros Hnd Hload. rewrite (train_after_load mm fs Hload).
  set (mm0 := (load_client_state mm fs).1).
  destruct (load_client_state_keeps mm fs) as (_ & _ & _ & Hp0 & _ & _ & Hsig0).
  fold mm0 in Hp0, Hsig0.
  destruct (train_loaded_keeps mm0 fs) as [Hp1 Hsig1].
  destruct (client_save_path mm) as [path|] eqn:Hpath.
  - apply (load_client_state_same _ _ path); [congruence| |].
    + apply train_loaded_saves. congruence.
    + rewrite (signature_keys "" _ (head (model mm))); [done|congruence].
  - apply load_client_state_absent. intros (p & Hp & _). congruence.
Qed.

(** X14. [test] right after [train], on the same manager: the loading step
    of [test] finds the head [train] just saved and changes nothing, and
    with no fine-tuning epoch [test] leaves every parameter of the body and
    of the head exactly as [train] left it. *)
Theorem test_after_train_is_pure mm fs :
  NoDup (dict_keys (state_dict_of "" (head (model mm)))) ->
  (load_client_state mm fs).2 = Ok tt ->
  let mm1 := (train mm fs).1.1 in
  let fs1 := (train mm fs).1.2 in
  load_client_state mm1 fs1 = (mm1, Ok tt) /\
  test mm1 fs1 = test_loaded mm1 fs1 /\
  (resolve DEFAULT_FINETUNE_EPOCHS (num_finetune_epochs (config mm)) <= 0 ->
   body (model (test mm1 fs1).1.1) = body (model mm1) /\
   head (model (test mm1 fs1).1.1) = head (model mm1)).
Proof.
  intros Hnd Hload mm1 fs1.
  pose proof (load_after_train mm fs Hnd Hload) as Hsame. fold mm1 fs1 in Hsame.
  assert (test mm1 fs1 = test_loaded mm1 fs1) as Htest.
  { rewrite test_after_load; by rewrite Hsame. }
  split_and!; [done..|]. intros Hnf. rewrite Htest.
  assert (config mm1 = config mm) as Hcfg.
  { unfold mm1. rewrite (train_after_load mm fs Hload).
    apply (load_client_state_keeps mm fs). }
  unfold test_loaded. cbn zeta. rewrite Hcfg, finetune_none by done. done.
Qed.

(** X15. After a [train] that ran a representation epoch, the head is
    frozen; so a [test] on the same manager does not move the head even
    when it fine-tunes, for any number of fine-tuning epochs: its
    fine-tuning updates the body only. *)
Theorem finetune_after_train_keeps_head mm fs :
  let nl := resolve DEFAULT_LOCAL_TRAIN_EPOCHS (num_local_epochs (config mm)) in
  let nr := resolve DEFAULT_REPRESENTATION_EPOCHS (num_rep_epochs (config mm)) in
  NoDup (dict_keys (state_dict_of "" (head (model mm)))) ->
  (load_client_state mm fs).2 = Ok tt ->
  1 <= nr -> 1 <= nl + nr ->
  state_dict_of "" (head (model (test (train mm fs).1.1 (train mm fs).1.2).1.1))
    = state_dict_of "" (head (model (train mm fs).1.1)).
Proof.
  intros nl nr Hnd Hload Hnr Hsum.
  pose proof (load_after_train mm fs Hnd Hload) as Hsame.
  rewrite test_after_load; rewrite Hsame; [|done]. cbn [fst].
  unfold test_loaded. cbn zeta. cbn [fst with_model model _model].
  unfold set_mode, head. cbn [_head]. apply finetune_keeps.
  fold (model (train mm fs).1.1).
  rewrite (train_after_load mm fs Hload), train_loaded_model.
  destruct (load_client_state_keeps mm fs) as (-> & _). fold nl nr.
  destruct (train_loop_last_epoch (load_client_state mm fs).1 nl nr Hsum) as [Hrep _].
  destruct (Hrep Hnr) as [st Hst]. rewrite Hst. apply rep_phase_flags_kept.
Qed.

(** *** Counting in the evaluation loop *)

Lemma eval_batches_counts ms bs (st : EvalState) :
  es_total (fold_left (eval_batch ms) bs st)
    = es_total st + foldr Z.add 0 (batch_size <$> bs) /\
  es_correct (fold_left (eval_batch ms) bs st)
    = es_correct st
      + foldr Z.add 0 (num_correct (training ms) (state_dict ms) <$> bs) /\
  es_loss (fold_left (eval_batch ms) bs st)
    = fold_left float_add (loss_value (training ms) (state_dict ms) <$> bs) (es_loss st).
Proof.
  revert st. induction bs as [|b bs IH]; intros st; csimpl; [split_and!; [lia..|done]|].
  destruct (IH (eval_batch ms st b)) as (-> & -> & ->).
  cbn [eval_batch es_total es_correct es_loss]. split_and!; [lia..|done].
Qed.

(** X16. The evaluation of [test] counts each example of the test loader
    once: [total] is the sum of the sizes of its minibatches, [correct] the
    sum of their hits and [loss] the float sum, from 0.0 and in loader
    order, of their losses, all on the same model in evaluation mode.  The
    accuracy returned is [correct / total], while the loss returned is that
    sum of minibatch losses divided by the size of the dataset. *)
Theorem test_counts_each_example_once mm fs :
  let ms := set_mode false
              (finetune mm (resolve DEFAULT_FINETUNE_EPOCHS
                              (num_finetune_epochs (config mm)))) in
  let seen := foldr Z.add 0 (batch_size <$> batches (testloader mm)) in
  let hits := foldr Z.add 0 (num_correct false (state_dict ms) <$> batches (testloader mm)) in
  let losses :=
    fold_left float_add (loss_value false (state_dict ms) <$> batches (testloader mm))
      (float_lit 0) in
  es_total (test_eval_state mm) = seen /\
  es_correct (test_eval_state mm) = hits /\
  es_loss (test_eval_state mm) = losses /\
  (forall r, (test_loaded mm fs).2 = Ok r ->
     m_accuracy r = int_truediv hits seen /\
     m_loss r = float_div losses (float_of_int (dataset_len (testloader mm)))).
Proof.
  intros ms seen hits losses.
  destruct (eval_batches_counts ms (batches (testloader mm))
              {| es_loss := float_lit 0; es_correct := 0; es_total := 0 |})
    as (Htot & Hcor & Hloss).
  assert (es_total (test_eval_state mm) = seen) as Hseen by (exact Htot).
  assert (es_correct (test_eval_state mm) = hits) as Hhits by (exact Hcor).
  assert (es_loss (test_eval_state mm) = losses) as Hlosses by (exact Hloss).
  split_and!; [done..|]. intros r. rewrite test_loaded_result.
  unfold test_metrics, py_float_truediv, py_int_truediv.
  rewrite Hseen, Hhits, Hlosses. repeat case_decide; try done.
  intros [= <-]. done.
Qed.
End SequenceExtras.

Section StateFileExtras.
Context `{NW : Network} `{CS : Constants}.
Implicit Types (mm : ModelManager) (fs : gmap string StateDict).

(** X17. A state file that does not fit the head, because it lacks one of
    its keys or has a key the head does not know, stops [train] and [test]
    at their loading step: both raise the error of the strict load, no
    epoch is run, the body is not touched and no file is written. *)
Theorem unfit_state_file_stops_the_call mm fs path saved :
  client_save_path mm = Some path ->
  fs !! path = Some saved ->
  (exists k, k ∈ dict_keys (state_dict_of "" (head (model mm))) /\
             dict_get saved k = None) \/
  (exists k, k ∈ dict_keys saved /\
             k ∉ dict_keys (state_dict_of "" (head (model mm)))) ->
  (train mm fs).2 = Raise RuntimeError /\
  (test mm fs).2 = Raise RuntimeError /\
  (train mm fs).1.2 = fs /\
  (test mm fs).1.2 = fs /\
  body (model (train mm fs).1.1) = body (model mm) /\
  body (model (test mm fs).1.1) = body (model mm).
Proof.
  intros Hpath Hfile Hbad.
  assert ((load_client_state mm fs).2 = Raise RuntimeError) as Hload.
  { rewrite (load_client_state_present mm fs path saved Hpath Hfile). cbn [snd].
    by rewrite (load_strict_rejects _ _ Hbad). }
  rewrite (train_load_raises mm fs _ Hload), (test_load_raises mm fs _ Hload).
  cbn [fst snd]. split_and!; try done; apply load_client_state_keeps.
Qed.
End StateFileExtras.

(** ** The further properties at work on the small network *)

Section MoreRuns.
Import Toy.

Lemma set_parameters_keeps_other_part_witness :
  NoDup (dict_keys body_only) /\
  head (set_parameters net body_only).1 = head net /\
  dict_get (state_dict (set_parameters net body_only).1) "_body.fc1.weight"
    = Some (weight 4).
Proof.
  assert (NoDup (dict_keys body_only)) as Hnd
    by (apply (bool_decide_unpack _); vm_compute; exact I).
  destruct (set_parameters_keeps_other_part net body_only) as [H _];
    [exact net_keys_NoDup | exact Hnd |].
  split_and!; [exact Hnd | | reflexivity].
  apply H. intros kp Hin.
  repeat (apply elem_of_cons in Hin as [->|Hin]); [..|by apply elem_of_nil in Hin];
    reflexivity.
Defined.

Lemma setters_copy_before_raising_witness :
  dict_get partial_head "fc2.bias" = Some (bias 9) /\
  (set_head net partial_head).2 = Raise RuntimeError /\
  dict_get (state_dict_of "" (head (set_head net partial_head).1)) "fc2.bias"
    = Some (bias 9).
Proof.
  destruct (setters_copy_before_raising net partial_head
              ("fc2.bias", param (bias 30)) (bias 9)) as [_ H];
    [reflexivity | reflexivity |].
  split_and!; [reflexivity | reflexivity |].
  apply H; [exact net_head_keys_NoDup|]. right. left.
Defined.

Lemma head_phase_keeps_body_witness :
  (1 <= Z.to_nat 1)%nat /\
  state_dict_of "" (body (ts_model (train_loop_upto client 1 1 1)))
    = state_dict_of "" (body (model client)).
Proof.
  split; [done|].
  destruct (head_phase_keeps_body client 1 1) as (H & _). by apply H.
Defined.

Lemma train_returns_metrics_iff_witness :
  (0 <= learning_rate client)%Q /\
  (load_client_state client no_files).2 = Ok tt /\
  is_ok (train client no_files).2 = true /\
  ts_total (train_loop client 1 1) = 8.
Proof.
  assert (0 <= learning_rate client)%Q as Hlr by (by vm_compute).
  destruct (train_returns_metrics_iff client no_files) as [Hiff _];
    [exact Hlr | discriminate | discriminate | reflexivity |].
  split_and!; [exact Hlr | reflexivity | | reflexivity].
  apply Hiff. split_and!; [discriminate | reflexivity | discriminate].
Defined.

Lemma train_loop_for_any_counts_witness :
  -1 <= 0 /\
  train_loop negative_client (-1) 3
    = Nat.iter 2 (rep_epoch (trainloader negative_client)) (train_init negative_client).
Proof.
  split; [lia|].
  destruct (train_loop_for_any_counts negative_client (-1) 3) as (_ & _ & H & _).
  apply H. lia.
Defined.

Lemma finetune_obeys_switches_witness :
  grads_set false (head (model frozen_head_client)) /\
  state_dict_of "" (head (model (test_loaded frozen_head_client no_files).1.1))
    = state_dict_of "" (head (model frozen_head_client)) /\
  state_dict_of "" (body (model (test_loaded frozen_head_client no_files).1.1))
    <> state_dict_of "" (body (model frozen_head_client)).
Proof.
  assert (grads_set false (head (model frozen_head_client))) as Hfrozen
    by (repeat constructor).
  destruct (finetune_obeys_switches frozen_head_client no_files) as [H _].
  split_and!; [exact Hfrozen | by apply H | vm_compute; discriminate].
Defined.

Lemma only_the_state_file_is_written_witness :
  client_save_path client <> Some "other.pth" /\
  (train client one_file).1.2 !! "other.pth" = one_file !! "other.pth" /\
  (test client one_file).1.2 = one_file.
Proof.
  destruct (only_the_state_file_is_written client one_file) as (H & _ & Htest).
  split_and!; [discriminate | apply H; discriminate | exact Htest].
Defined.


Lemma test_after_train_is_pure_witness :
  (load_client_state client no_files).2 = Ok tt /\
  body (model (test (train client no_files).1.1 (train client no_files).1.2).1.1)
    = body (model (train client no_files).1.1) /\
  head (model (test (train client no_files).1.1 (train client no_files).1.2).1.1)
    = head (model (train client no_files).1.1).
Proof.
  destruct (test_after_train_is_pure client no_files) as (_ & _ & H);
    [exact net_head_keys_NoDup | reflexivity |].
  split; [reflexivity|]. apply H. cbn. lia.
Defined.

Lemma finetune_after_train_keeps_head_witness :
  (load_client_state tuning_client no_files).2 = Ok tt /\
  resolve DEFAULT_FINETUNE_EPOCHS (num_finetune_epochs (config tuning_client)) = 2 /\
  state_dict_of ""
    (head (model (test (train tuning_client no_files).1.1
                    (train tuning_client no_files).1.2).1.1))
    = state_dict_of "" (head (model (train tuning_client no_files).1.1)).
Proof.
  split_and!; [reflexivity | reflexivity |].
  apply (finetune_after_train_keeps_head tuning_client no_files);
    [exact net_head_keys_NoDup | reflexivity | cbn; lia | cbn; lia].
Defined.

Lemma unfit_state_file_stops_the_call_witness :
  foreign_file !! "state.pth" = Some [("classifier.weight", weight 1)] /\
  (train client foreign_file).2 = Raise RuntimeError /\
  (train client foreign_file).1.2 = foreign_file.
Proof.
  assert (foreign_file !! "state.pth" = Some [("classifier.weight", weight 1)])
    as Hfile by apply lookup_singleton_eq.
  destruct (unfit_state_file_stops_the_call client foreign_file "state.pth"
              [("classifier.weight", weight 1)]) as (H1 & _ & H2 & _);
    [reflexivity | exact Hfile | | by split_and!].
  right. exists "classifier.weight". split; [left|].
  vm_compute. intros Hin.
  repeat (apply elem_of_cons in Hin as [Heq|Hin]; [discriminate Heq|]).
  by apply elem_of_nil in Hin.
Defined.
End MoreRuns.
